(** * System monitor: the metrics receiver (metrics_api.py)

    A shallow embedding of the four request handlers of the metrics
    receiver -- [ingest_metrics], [list_devices], [get_device_metrics] and
    [get_latest_metrics] -- over an explicit model of the JSON values they
    manipulate, of the module-level store [_metrics_store], of the wall
    clock they read and of the lock they take.

    Conventions.
    - A request body is the value returned by [request.get_json()], a
      [json].  Python's dynamic typing is kept: every operation the
      handlers apply to such a value ([in], subscripting, [.get],
      [.replace], truth testing, ...) is a function on [json] that raises
      the exception Python raises on the wrong type.
    - A JSON float is a finite double, represented by its exact rational
      value; NaN and the infinities (which are not JSON) are left out.
    - Durations are integers, in microseconds, which is the resolution of
      [timedelta]; [total_seconds() > 60] is decided on them exactly. *)

From Stdlib Require Import ZArith QArith List String Ascii Bool Lia.
Import ListNotations.

Local Open Scope string_scope.
Local Open Scope Z_scope.
Local Open Scope list_scope.

(* ================================================================== *)
(** * Exceptions *)

Inductive exn : Type :=
| KeyError
| TypeError
| AttributeError
| ValueError
| OverflowError.

(** A computation that returns a value or raises. *)
Inductive exc (A : Type) : Type :=
| Ok (a : A)
| Raise (e : exn).

Arguments Ok {A} a.
Arguments Raise {A} e.

Definition bind {A B : Type} (m : exc A) (k : A -> exc B) : exc B :=
  match m with
  | Ok a => k a
  | Raise e => Raise e
  end.

Notation "x <- m ;; k" := (bind m (fun x => k))
  (at level 61, m at next level, right associativity).

(** [try: m except: h] with a bare [except], which catches everything. *)
Definition try_except {A : Type} (m : exc A) (h : A) : A :=
  match m with
  | Ok a => a
  | Raise _ => h
  end.

Definition is_ok {A : Type} (m : exc A) : bool :=
  match m with
  | Ok _ => true
  | Raise _ => false
  end.

(* ================================================================== *)
(** * JSON values *)

Set Warnings "-register-all".

Inductive json : Type :=
| JNull
| JBool (b : bool)
| JInt (z : Z)
| JFloat (q : Q)
| JStr (s : string)
| JArr (l : list json)
| JObj (kv : list (string * json)).

(** A Python [dict] with string keys, in insertion order.  The first
    binding of a key is the one that counts. *)
Definition dict : Type := list (string * json).

Fixpoint dict_get (k : string) (d : dict) : option json :=
  match d with
  | [] => None
  | (k', v) :: d' => if String.eqb k k' then Some v else dict_get k d'
  end.

Definition dict_mem (k : string) (d : dict) : bool :=
  match dict_get k d with
  | Some _ => true
  | None => false
  end.

(** [d[k] = v]: an existing key keeps its place, a new one goes last. *)
Fixpoint dict_set (k : string) (v : json) (d : dict) : dict :=
  match d with
  | [] => [(k, v)]
  | (k', v') :: d' =>
      if String.eqb k k' then (k', v) :: d' else (k', v') :: dict_set k v d'
  end.

(** ** Truth value, [bool(x)] *)

Definition py_truthy (x : json) : bool :=
  match x with
  | JNull => false
  | JBool b => b
  | JInt z => negb (z =? 0)
  | JFloat q => negb (Qeq_bool q 0)
  | JStr s => negb (String.eqb s "")
  | JArr l => match l with [] => false | _ :: _ => true end
  | JObj kv => match kv with [] => false | _ :: _ => true end
  end.

(** ** Numbers.  [bool] is a subclass of [int]: [True == 1]. *)

Definition num_value (x : json) : option Q :=
  match x with
  | JBool b => Some (if b then 1%Q else 0%Q)
  | JInt z => Some (inject_Z z)
  | JFloat q => Some q
  | _ => None
  end.

(** ** Equality, [x == y] *)

(** [x == s] for a string literal [s]: only a [str] equals a [str]. *)
Definition py_eq_str (x : json) (s : string) : bool :=
  match x with
  | JStr t => String.eqb t s
  | _ => false
  end.

Fixpoint py_eq (x y : json) : bool :=
  match x, y with
  | JNull, JNull => true
  | JStr s, JStr t => String.eqb s t
  | JArr l, JArr m =>
      (fix all2 (l m : list json) {struct l} : bool :=
         match l, m with
         | [], [] => true
         | a :: l', b :: m' => py_eq a b && all2 l' m'
         | _, _ => false
         end) l m
  | JObj d, JObj e =>
      (fix sub (seen : list string) (d : dict) {struct d} : bool :=
         match d with
         | [] => true
         | (k, v) :: d' =>
             (if existsb (String.eqb k) seen then true
              else match dict_get k e with
                   | Some w => py_eq v w
                   | None => false
                   end)
             && sub (k :: seen) d'
         end) [] d
      && forallb (fun kw => dict_mem (fst kw) d) e
  | JNull, _ | JStr _, _ | JArr _, _ | JObj _, _ => false
  | _, _ =>
      match num_value x, num_value y with
      | Some p, Some q => Qeq_bool p q
      | _, _ => false
      end
  end.

(** ** Ordering, [x > y]: defined between numbers, between strings and
    between lists; a [TypeError] otherwise. *)

Fixpoint py_gt (x y : json) : exc bool :=
  match x, y with
  | JStr s, JStr t => Ok (String.ltb t s)
  | JArr l, JArr m =>
      (fix lex (l m : list json) {struct l} : exc bool :=
         match l, m with
         | [], _ => Ok false
         | _ :: _, [] => Ok true
         | a :: l', b :: m' => if py_eq a b then lex l' m' else py_gt a b
         end) l m
  | _, _ =>
      match num_value x, num_value y with
      | Some p, Some q => Ok (negb (Qle_bool p q))
      | _, _ => Raise TypeError
      end
  end.

(** ** Containers *)

(** [needle in hay] on strings. *)
Fixpoint str_contains (needle hay : string) : bool :=
  String.prefix needle hay
  || match hay with
     | EmptyString => false
     | String _ hay' => str_contains needle hay'
     end.

(** ['k' in x] *)
Definition py_in (k : string) (x : json) : exc bool :=
  match x with
  | JObj d => Ok (dict_mem k d)
  | JArr l => Ok (existsb (fun e => py_eq_str e k) l)
  | JStr s => Ok (str_contains k s)
  | _ => Raise TypeError
  end.

(** [x['k']] *)
Definition py_getitem (x : json) (k : string) : exc json :=
  match x with
  | JObj d => match dict_get k d with
              | Some v => Ok v
              | None => Raise KeyError
              end
  | _ => Raise TypeError
  end.

(** [x['k'] = v]; only a [dict] takes a string subscript, so the result
    is the updated [dict]. *)
Definition py_setitem (x : json) (k : string) (v : json) : exc dict :=
  match x with
  | JObj d => Ok (dict_set k v d)
  | _ => Raise TypeError
  end.

(** [x.get('k', default)] *)
Definition py_get (x : json) (k : string) (default : json) : exc json :=
  match x with
  | JObj d => Ok (match dict_get k d with
                  | Some v => v
                  | None => default
                  end)
  | _ => Raise AttributeError
  end.

(** [d.get('k', default)] on a value known to be a [dict]. *)
Definition dget (d : dict) (k : string) (default : json) : json :=
  match dict_get k d with
  | Some v => v
  | None => default
  end.

(* ================================================================== *)
(** * The store, [_metrics_store]

    A Python [dict] whose keys are whatever [data['device_id']] was: any
    hashable JSON value.  Its values are always the [dict]s that
    [ingest_metrics] put there. *)

Definition store : Type := list (json * dict).

(** [hash(x)] raises on lists and dicts. *)
Definition py_hashable (x : json) : bool :=
  match x with
  | JArr _ | JObj _ => false
  | _ => true
  end.

Fixpoint store_get (k : json) (s : store) : option dict :=
  match s with
  | [] => None
  | (k', d) :: s' => if py_eq k k' then Some d else store_get k s'
  end.

(** An existing entry keeps its place and its key object. *)
Fixpoint store_put (k : json) (d : dict) (s : store) : store :=
  match s with
  | [] => [(k, d)]
  | (k', d') :: s' =>
      if py_eq k k' then (k', d) :: s' else (k', d') :: store_put k d s'
  end.

(** [_metrics_store[k] = d] *)
Definition store_setitem (k : json) (d : dict) (s : store) : exc store :=
  if py_hashable k then Ok (store_put k d s) else Raise TypeError.

(* ================================================================== *)
(** * Time *)

(** The fields of a [datetime] object. *)
Record datetime : Type := mkDatetime {
  year : Z;
  month : Z;
  day : Z;
  hour : Z;
  minute : Z;
  second : Z;
  microsecond : Z
}.

Definition is_leap (y : Z) : bool :=
  (y mod 4 =? 0) && (negb (y mod 100 =? 0) || (y mod 400 =? 0)).

Definition days_in_month (y m : Z) : Z :=
  if m =? 2 then (if is_leap y then 29 else 28)
  else if (m =? 4) || (m =? 6) || (m =? 9) || (m =? 11) then 30
  else 31.

(** What the [datetime] constructor accepts. *)
Definition valid_datetime (t : datetime) : bool :=
  (1 <=? year t) && (year t <=? 9999)
  && (1 <=? month t) && (month t <=? 12)
  && (1 <=? day t) && (day t <=? days_in_month (year t) (month t))
  && (0 <=? hour t) && (hour t <=? 23)
  && (0 <=? minute t) && (minute t <=? 59)
  && (0 <=? second t) && (second t <=? 59)
  && (0 <=? microsecond t) && (microsecond t <=? 999999).

Definition days_before_year (y : Z) : Z :=
  let p := y - 1 in p * 365 + p / 4 - p / 100 + p / 400.

Fixpoint days_before_month_aux (y : Z) (n : nat) : Z :=
  match n with
  | O => 0
  | S n' => days_before_month_aux y n' + days_in_month y (Z.of_nat n)
  end.

Definition days_before_month (y m : Z) : Z :=
  days_before_month_aux y (Z.to_nat (m - 1)).

(** [toordinal()]: 1 for 0001-01-01. *)
Definition ymd2ord (y m d : Z) : Z :=
  days_before_year y + days_before_month y m + d.

(** The fields as one count of microseconds, the quantity that
    [datetime.__sub__] takes differences of. *)
Definition to_us (t : datetime) : Z :=
  ((ymd2ord (year t) (month t) (day t) * 86400
    + hour t * 3600 + minute t * 60 + second t) * 1000000)
  + microsecond t.

(** One reading of the wall clock: what [datetime.utcnow()] returns, and
    the local UTC offset (microseconds) by which [datetime.now()] differs
    from it. *)
Record reading : Type := mkReading {
  utcnow : datetime;
  local_utcoffset : Z
}.

(** ** [isoformat] *)

Definition digit_char (d : Z) : ascii := ascii_of_nat (48 + Z.to_nat d).

(** The [n] low decimal digits of [v], most significant first. *)
Fixpoint digits (n : nat) (v : Z) (tail : string) : string :=
  match n with
  | O => tail
  | S n' => digits n' (v / 10) (String (digit_char (v mod 10)) tail)
  end.

(** [t.isoformat()] of a naive [datetime]:
    [YYYY-MM-DDTHH:MM:SS], followed by [.ffffff] when the microsecond
    is not zero. *)
Definition isoformat (t : datetime) : string :=
  digits 4 (year t) ("-" ++ digits 2 (month t) ("-" ++ digits 2 (day t)
    ("T" ++ digits 2 (hour t) (":" ++ digits 2 (minute t)
      (":" ++ digits 2 (second t)
        (if microsecond t =? 0 then ""
         else "." ++ digits 6 (microsecond t) "")))))).

(** [datetime.utcnow().isoformat() + "Z"] *)
Definition stamp (now : reading) : string := isoformat (utcnow now) ++ "Z".

(** [s.replace('Z', '+00:00')] *)
Fixpoint replace_Z (s : string) : string :=
  match s with
  | EmptyString => EmptyString
  | String c s' =>
      if Ascii.eqb c "Z"%char then "+00:00" ++ replace_Z s'
      else String c (replace_Z s')
  end.

(** ** [datetime.fromisoformat]

    The parser of CPython 3.7 to 3.10, the versions for which the
    caller's [replace('Z', '+00:00')] is needed: a date [YYYY-MM-DD],
    then optionally one separator character and a time
    [HH[:MM[:SS[.fff[fff]]]]] with an optional offset [+HH:MM[:SS[.ffffff]]]. *)

Definition digit_value (c : ascii) : option Z :=
  let n := Z.of_nat (nat_of_ascii c) in
  if (48 <=? n) && (n <=? 57) then Some (n - 48) else None.

(** Exactly [n] decimal digits. *)
Fixpoint parse_digits (n : nat) (acc : Z) (s : string) : option (Z * string) :=
  match n with
  | O => Some (acc, s)
  | S n' =>
      match s with
      | EmptyString => None
      | String c s' =>
          match digit_value c with
          | Some d => parse_digits n' (acc * 10 + d) s'
          | None => None
          end
      end
  end.

Definition expect (c : ascii) (s : string) : option string :=
  match s with
  | EmptyString => None
  | String c' s' => if Ascii.eqb c' c then Some s' else None
  end.

Definition parse_isoformat_date (s : string) : option (Z * Z * Z * string) :=
  match parse_digits 4 0 s with
  | None => None
  | Some (y, s1) =>
      match expect "-" s1 with
      | None => None
      | Some s2 =>
          match parse_digits 2 0 s2 with
          | None => None
          | Some (m, s3) =>
              match expect "-" s3 with
              | None => None
              | Some s4 =>
                  match parse_digits 2 0 s4 with
                  | None => None
                  | Some (d, s5) => Some (y, m, d, s5)
                  end
              end
          end
      end
  end.

(** What follows a two-digit field: the end of the component (with the
    parser's "something is left" flag), a colon or a dot. *)
Inductive field_next : Type :=
| FDone (left : bool)
| FColon (rest : string)
| FDot (rest : string).

(** One round of the loop of [parse_hh_mm_ss_ff].  [more] tells whether a
    character (the sign of the offset) follows the component. *)
Definition parse_field (t : string) (more : bool) : option (Z * field_next) :=
  match parse_digits 2 0 t with
  | None => None
  | Some (v, r) =>
      match r with
      | EmptyString => Some (v, FDone more)
      | String c EmptyString => Some (v, FDone (negb (Ascii.eqb c zero)))
      | String c r' =>
          if Ascii.eqb c ":" then Some (v, FColon r')
          else if Ascii.eqb c "." then Some (v, FDot r')
          else None
      end
  end.

Definition parse_fraction (r : string) : option Z :=
  let n := String.length r in
  if Nat.eqb n 6 || Nat.eqb n 3 then
    match parse_digits n 0 r with
    | Some (us, _) => Some (if Nat.eqb n 3 then us * 1000 else us)
    | None => None
    end
  else None.

(** Hour, minute, second, microsecond and the "something is left" flag. *)
Definition parse_hh_mm_ss_ff (t : string) (more : bool)
  : option (Z * Z * Z * Z * bool) :=
  let fraction h m s r :=
    match parse_fraction r with
    | Some us => Some (h, m, s, us, more)
    | None => None
    end in
  match parse_field t more with
  | None => None
  | Some (h, FDone l) => Some (h, 0, 0, 0, l)
  | Some (h, FDot r) => fraction h 0 0 r
  | Some (h, FColon r1) =>
      match parse_field r1 more with
      | None => None
      | Some (m, FDone l) => Some (h, m, 0, 0, l)
      | Some (m, FDot r) => fraction h m 0 r
      | Some (m, FColon r2) =>
          match parse_field r2 more with
          | None => None
          | Some (s, FDone l) => Some (h, m, s, 0, l)
          | Some (s, FDot r) | Some (s, FColon r) => fraction h m s r
          end
      end
  end.

Definition is_sign (c : ascii) : bool := Ascii.eqb c "+" || Ascii.eqb c "-".

(** The time component and what starts at the first sign, if any. *)
Fixpoint split_tz (s : string) : string * string :=
  match s with
  | EmptyString => (EmptyString, EmptyString)
  | String c s' =>
      if is_sign c then (EmptyString, s)
      else let (t, z) := split_tz s' in (String c t, z)
  end.

(** The offset of the [tzinfo] built from the parsed components, in
    microseconds; a zero offset in seconds is [timezone.utc]. *)
Definition tz_offset (sign : ascii) (h m s us : Z) : exc Z :=
  let sg := if Ascii.eqb sign "-" then -1 else 1 in
  let secs := sg * (h * 3600 + m * 60 + s) in
  if secs =? 0 then Ok 0
  else
    let off := secs * 1000000 + sg * us in
    if (-86400000000 <? off) && (off <? 86400000000) then Ok off
    else Raise ValueError.

Definition parse_isoformat_time (s : string)
  : exc (Z * Z * Z * Z * option Z) :=
  let (t, z) := split_tz s in
  match z with
  | EmptyString =>
      match parse_hh_mm_ss_ff t false with
      | Some (h, m, sec, us, false) => Ok (h, m, sec, us, None)
      | _ => Raise ValueError
      end
  | String sign zr =>
      match parse_hh_mm_ss_ff t true with
      | None => Raise ValueError
      | Some (h, m, sec, us, _) =>
          let n := String.length z in
          if Nat.eqb n 6 || Nat.eqb n 9 || Nat.eqb n 16 then
            match parse_hh_mm_ss_ff zr false with
            | Some (zh, zm, zs, zus, false) =>
                off <- tz_offset sign zh zm zs zus ;;
                Ok (h, m, sec, us, Some off)
            | _ => Raise ValueError
            end
          else Raise ValueError
      end
  end.

(** A parsed [datetime]: its fields and, when it is aware, its offset
    from UTC in microseconds. *)
Record parsed : Type := mkParsed {
  fields : datetime;
  tzoffset : option Z
}.

Definition new_datetime (y m d h mi s us : Z) (tz : option Z) : exc parsed :=
  let t := mkDatetime y m d h mi s us in
  if valid_datetime t then Ok (mkParsed t tz) else Raise ValueError.

Definition fromisoformat (s : string) : exc parsed :=
  match parse_isoformat_date s with
  | None => Raise ValueError
  | Some (y, m, d, rest) =>
      match rest with
      | EmptyString => new_datetime y m d 0 0 0 0 None
      | String _ tstr =>
          c <- parse_isoformat_time tstr ;;
          let '(h, mi, sec, us, tz) := c in
          new_datetime y m d h mi sec us tz
      end
  end.

(** [x.replace('Z', '+00:00')]: only a [str] has the method. *)
Definition py_replace_Z (x : json) : exc string :=
  match x with
  | JStr s => Ok (replace_Z s)
  | _ => Raise AttributeError
  end.

(** [datetime.now(p.tzinfo) - p], in microseconds.  Both operands carry
    the same [tzinfo], so the difference is that of their fields: those of
    the current time in the zone of [p], or in local time when [p] is
    naive. *)
Definition now_minus (now : reading) (p : parsed) : Z :=
  match tzoffset p with
  | Some off => to_us (utcnow now) + off - to_us (fields p)
  | None => to_us (utcnow now) + local_utcoffset now - to_us (fields p)
  end.

(** The first two statements of the three [try] blocks:
[[
   received_at = datetime.fromisoformat(data['received_at'].replace('Z', '+00:00'))
   age_seconds = (datetime.now(received_at.tzinfo) - received_at).total_seconds()
]]
    The age is kept in microseconds. *)
Definition age_of (now : reading) (data : dict) : exc Z :=
  r <- py_getitem (JObj data) "received_at" ;;
  s <- py_replace_Z r ;;
  p <- fromisoformat s ;;
  Ok (now_minus now p).

(** [_MAX_AGE_SECONDS = 60], in microseconds. *)
Definition _MAX_AGE_SECONDS : Z := 60.
Definition max_age_us : Z := _MAX_AGE_SECONDS * 1000000.

(* ================================================================== *)
(** * POST /api/metrics/ingest *)

Inductive ingest_response : Type :=
| Ingest200 (device_id : json) (received_at : json)
| Ingest400
| Ingest500 (e : exn).

(** The expression printed after the write:
    [data.get('metrics', {}).get('cpu', {}).get('usage_percent', 'N/A')]. *)
Definition logged_cpu (data : dict) : exc json :=
  m <- py_get (JObj data) "metrics" (JObj []) ;;
  c <- py_get m "cpu" (JObj []) ;;
  py_get c "usage_percent" (JStr "N/A").

(** The three statements between the check and the log line: read the
    key, stamp the payload, write the store. *)
Definition ingest_write (now : reading) (data : json) (s : store)
  : exc (json * dict * store) :=
  device_id <- py_getitem data "device_id" ;;
  d <- py_setitem data "received_at" (JStr (stamp now)) ;;
  s' <- store_setitem device_id d s ;;
  Ok (device_id, d, s').

(** The body of the [try]: the store it leaves, and the response it
    returns or the exception it raises. *)
Definition ingest_try (now : reading) (data : json) (s : store)
  : store * exc ingest_response :=
  if negb (py_truthy data) then (s, Ok Ingest400)
  else
    match py_in "device_id" data with
    | Raise e => (s, Raise e)
    | Ok false => (s, Ok Ingest400)
    | Ok true =>
        match ingest_write now data s with
        | Raise e => (s, Raise e)
        | Ok (device_id, d, s') =>
            (s', _ <- logged_cpu d ;;
                 r <- py_getitem (JObj d) "received_at" ;;
                 Ok (Ingest200 device_id r))
        end
    end.

Definition ingest_metrics (now : reading) (data : json) (s : store)
  : store * ingest_response :=
  let (s', r) := ingest_try now data s in
  (s', match r with
       | Ok resp => resp
       | Raise e => Ingest500 e
       end).

(* ================================================================== *)
(** * GET /api/metrics/devices *)

Record device_summary : Type := mkSummaryRow {
  ds_device_id : json;
  ds_hostname : json;
  ds_device_type : json;
  ds_overall_status : json;
  ds_last_seen : json;
  ds_is_stale : bool
}.

(** One iteration of the loop, run at clock reading [now]. *)
Definition list_row (now : reading) (device_id : json) (data : dict)
  : device_summary :=
  let is_stale :=
    try_except (age <- age_of now data ;; Ok (age >? max_age_us)) true in
  {| ds_device_id := device_id;
     ds_hostname := dget data "hostname" (JStr "Unknown");
     ds_device_type := dget data "device_type" (JStr "unknown");
     ds_overall_status :=
       if is_stale then JStr "offline"
       else dget data "overall_status" (JStr "unknown");
     ds_last_seen := dget data "received_at" JNull;
     ds_is_stale := is_stale |}.

(** The loop; iteration [i] reads the clock at [clock i]. *)
Fixpoint list_loop (clock : nat -> reading) (i : nat) (s : store)
  : list device_summary :=
  match s with
  | [] => []
  | (device_id, data) :: s' =>
      list_row (clock i) device_id data :: list_loop clock (S i) s'
  end.

Definition list_devices (clock : nat -> reading) (s : store)
  : list device_summary :=
  list_loop clock 0%nat s.

(* ================================================================== *)
(** * GET /api/metrics/device/<device_id> *)

Inductive detail_response : Type :=
| Detail200 (data : dict)
| Detail404.

(** The age in seconds, as the exact quotient that [total_seconds()]
    rounds to a double. *)
Definition seconds (age_us : Z) : json := JFloat (age_us # 1000000).

Definition get_device_metrics (now : reading) (device_id : string) (s : store)
  : detail_response :=
  match store_get (JStr device_id) s with
  | None => Detail404
  | Some data =>
      Detail200
        (try_except
           (age <- age_of now data ;;
            Ok (dict_set "age_seconds" (seconds age)
                  (dict_set "is_stale" (JBool (age >? max_age_us)) data)))
           (dict_set "is_stale" (JBool true) data))
  end.

(* ================================================================== *)
(** * GET /api/metrics/latest *)

Record summary : Type := mkSummary {
  total_devices : nat;
  online : nat;
  offline : nat;
  healthy : nat;
  warning : nat;
  critical : nat
}.

Record dash_device : Type := mkDashDevice {
  dd_device_id : json;
  dd_hostname : json;
  dd_platform : json;
  dd_is_online : bool;
  dd_overall_status : json;
  dd_metrics : json;
  dd_last_seen : json;
  (** microseconds, before [round(_, 1)]; [None] is JSON [null] *)
  dd_age_seconds : option Z
}.

(** The local variables that the loop updates. *)
Record acc : Type := mkAcc {
  devices : list dash_device;
  counts : summary;
  cpu_statuses : list json;
  memory_statuses : list json;
  disk_statuses : list json;
  network_statuses : list json
}.

Definition acc0 : acc :=
  {| devices := [];
     counts := mkSummary 0 0 0 0 0 0;
     cpu_statuses := [];
     memory_statuses := [];
     disk_statuses := [];
     network_statuses := [] |}.

(** [if k in metrics: statuses.append(metrics[k].get('status', 'unknown'))] *)
Definition collect (metrics : json) (k : string) (statuses : list json)
  : exc (list json) :=
  b <- py_in k metrics ;;
  if b then
    r <- py_getitem metrics k ;;
    st <- py_get r "status" (JStr "unknown") ;;
    Ok (statuses ++ [st])
  else Ok statuses.

(** The [try] of the loop: [is_online] and [age_seconds], the latter 999
    seconds in the handler. *)
Definition online_age (now : reading) (data : dict) : bool * Z :=
  try_except (age <- age_of now data ;; Ok (age <=? max_age_us, age))
             (false, 999 * 1000000).

Definition count_status (status : json) (c : summary) : summary :=
  if py_eq_str status "healthy" then
    mkSummary (total_devices c) (online c) (offline c)
              (S (healthy c)) (warning c) (critical c)
  else if py_eq_str status "warning" then
    mkSummary (total_devices c) (online c) (offline c)
              (healthy c) (S (warning c)) (critical c)
  else if py_eq_str status "critical" then
    mkSummary (total_devices c) (online c) (offline c)
              (healthy c) (warning c) (S (critical c))
  else c.

(** One iteration of the loop, run at clock reading [now]. *)
Definition dash_step (now : reading) (a : acc) (device_id : json) (data : dict)
  : exc acc :=
  let c := counts a in
  let c1 := mkSummary (S (total_devices c)) (online c) (offline c)
                      (healthy c) (warning c) (critical c) in
  let (is_online, age) := online_age now data in
  a' <-
    (if is_online then
       let c2 := mkSummary (total_devices c1) (S (online c1)) (offline c1)
                           (healthy c1) (warning c1) (critical c1) in
       let status := dget data "overall_status" (JStr "unknown") in
       let c3 := count_status status c2 in
       let metrics := dget data "metrics" (JObj []) in
       cpu <- collect metrics "cpu" (cpu_statuses a) ;;
       mem <- collect metrics "memory" (memory_statuses a) ;;
       dsk <- collect metrics "disk" (disk_statuses a) ;;
       net <- collect metrics "network" (network_statuses a) ;;
       Ok (mkAcc (devices a) c3 cpu mem dsk net)
     else
       Ok (mkAcc (devices a)
                 (mkSummary (total_devices c1) (online c1) (S (offline c1))
                            (healthy c1) (warning c1) (critical c1))
                 (cpu_statuses a) (memory_statuses a)
                 (disk_statuses a) (network_statuses a))) ;;
  Ok (mkAcc
        (devices a' ++
         [ {| dd_device_id := device_id;
              dd_hostname := dget data "hostname" (JStr "Unknown");
              dd_platform := dget data "platform" (JStr "Unknown");
              dd_is_online := is_online;
              dd_overall_status :=
                if negb is_online then JStr "offline"
                else dget data "overall_status" (JStr "unknown");
              dd_metrics := dget data "metrics" (JObj []);
              dd_last_seen := dget data "received_at" JNull;
              dd_age_seconds :=
                if age =? 999 * 1000000 then None else Some age |} ])
        (counts a') (cpu_statuses a') (memory_statuses a')
        (disk_statuses a') (network_statuses a')).

Fixpoint dash_loop (clock : nat -> reading) (i : nat) (s : store) (a : acc)
  : exc acc :=
  match s with
  | [] => Ok a
  | (device_id, data) :: s' =>
      a' <- dash_step (clock i) a device_id data ;;
      dash_loop clock (S i) s' a'
  end.

(** The nested helper [aggregate_status]. *)
Definition aggregate_status (statuses : list json) : string :=
  match statuses with
  | [] => "unknown"
  | _ :: _ =>
      if existsb (fun s => py_eq_str s "critical") statuses then "critical"
      else if existsb (fun s => py_eq_str s "warning") statuses then "warning"
      else if forallb (fun s => py_eq_str s "healthy") statuses then "healthy"
      else "unknown"
  end.

(** [max(devices, key=lambda d: d.get('last_seen', ''))]: the first of the
    greatest, comparing with [>]. *)
Fixpoint max_last_seen (best : dash_device) (l : list dash_device)
  : exc dash_device :=
  match l with
  | [] => Ok best
  | d :: l' =>
      g <- py_gt (dd_last_seen d) (dd_last_seen best) ;;
      max_last_seen (if g then d else best) l'
  end.

(** The detail strings, kept symbolic: which text, about which value. *)
Inductive detail : Type :=
| NoData                       (* "No data" *)
| Connections (v : json)       (* f"{v} connections" *)
| PercentCPU (v : json)        (* f"{v:.1f}% CPU" *)
| PercentUsed (v : json)       (* f"{v:.1f}% used" *)
| Text (s : string)
| OnlineOf (n total : nat).    (* f"{n}/{total} online" *)

(** [f"{v:.1f}"] needs a number that converts to a double. *)
Definition format_1f (v : json) : exc unit :=
  match v with
  | JBool _ | JFloat _ => Ok tt
  | JInt z =>
      if Z.abs z <? 2 ^ 1024 - 2 ^ 970 then Ok tt else Raise OverflowError
  | JStr _ => Raise ValueError
  | _ => Raise TypeError
  end.

Definition network_detail (recent : json) : exc detail :=
  n <- py_get recent "network" JNull ;;
  if py_truthy n then
    n' <- py_get recent "network" (JObj []) ;;
    v <- py_get n' "connections" (JInt 0) ;;
    Ok (Connections v)
  else Ok NoData.

Definition usage_detail (recent : json) (k : string) (mk : json -> detail)
  : exc detail :=
  r <- py_get recent k (JObj []) ;;
  u <- py_get r "usage_percent" JNull ;;
  if py_truthy u then
    r' <- py_get recent k (JObj []) ;;
    v <- py_get r' "usage_percent" (JInt 0) ;;
    _ <- format_1f v ;;
    Ok (mk v)
  else Ok NoData.

Record subsystem : Type := mkSubsystem {
  status : string;
  detail_text : detail
}.

Record system_status : Type := mkSystemStatus {
  network : subsystem;
  compute : subsystem;
  storage : subsystem;
  cooling : subsystem;
  security : subsystem;
  power : subsystem
}.

Record dashboard : Type := mkDashboard {
  d_status : string;
  d_timestamp : option string;
  d_devices : list dash_device;
  d_summary : summary;
  d_system_status : system_status
}.

Definition no_data : dashboard :=
  {| d_status := "no_data";
     d_timestamp := None;
     d_devices := [];
     d_summary := mkSummary 0 0 0 0 0 0;
     d_system_status :=
       {| network := mkSubsystem "unknown" NoData;
          compute := mkSubsystem "unknown" NoData;
          storage := mkSubsystem "unknown" NoData;
          cooling := mkSubsystem "unknown" NoData;
          security := mkSubsystem "unknown" NoData;
          power := mkSubsystem "unknown" NoData |} |}.

(** What follows the loop. [now] is the reading of the final [utcnow()]. *)
Definition dash_finish (now : reading) (a : acc) : exc dashboard :=
  recent <-
    match devices a with
    | [] => Ok (JObj [])
    | d :: l => m <- max_last_seen d l ;; Ok (dd_metrics m)
    end ;;
  net <- network_detail recent ;;
  cpu <- usage_detail recent "cpu" PercentCPU ;;
  dsk <- usage_detail recent "disk" PercentUsed ;;
  Ok {| d_status := "ok";
        d_timestamp := Some (stamp now);
        d_devices := devices a;
        d_summary := counts a;
        d_system_status :=
          {| network := mkSubsystem (aggregate_status (network_statuses a)) net;
             compute := mkSubsystem (aggregate_status (cpu_statuses a)) cpu;
             storage := mkSubsystem (aggregate_status (disk_statuses a)) dsk;
             cooling := mkSubsystem "healthy" (Text "Temperature optimal");
             security := mkSubsystem "healthy" (Text "All systems secure");
             power :=
               mkSubsystem
                 (if (0 <? online (counts a))%nat then "healthy" else "unknown")
                 (OnlineOf (online (counts a)) (total_devices (counts a))) |} |}.

(** The handler returns a dashboard, or raises (and the framework answers
    500).  Iteration [i] of the loop reads the clock at [clock i]; the
    final timestamp is the reading after the last iteration. *)
Definition get_latest_metrics (clock : nat -> reading) (s : store)
  : exc dashboard :=
  match s with
  | [] => Ok no_data
  | _ :: _ =>
      a <- dash_loop clock 0%nat s acc0 ;;
      dash_finish (clock (List.length s)) a
  end.

(* ================================================================== *)
(** * The lock, [_metrics_lock]

    Each handler is also described by the events it performs, in program
    order: entering and leaving [with _metrics_lock:], and each piece of
    work it does, inside the block or outside it. *)

Inductive event : Type :=
| Acquire                      (* entering [with _metrics_lock:] *)
| Release                      (* leaving it: its end, a return, an exception *)
| Validate                     (* ingest: [get_json] and the check *)
| Stamp                        (* ingest: reading the key, stamping the payload *)
| Write (device_id : json)     (* ingest: the assignment to the store *)
| Log                          (* ingest: the [print] *)
| Respond                      (* a [return] of the handler *)
| Copy (device_id : json)      (* detail: the [.copy()] of the entry *)
| Classify (device_id : json)  (* the [try] that computes one age *)
| Aggregate.                   (* dashboard: what follows the loop *)

(** [with _metrics_lock: work]; the lock is released on every exit. *)
Definition with_lock (work : list event) : list event :=
  Acquire :: work ++ [Release].

(** [ingest_metrics]: the check and the stamping come before the lock,
    only the assignment is under it, the log line and the return come
    after it.  Every path ends with a return, that of the [except]
    included; an unhashable [device_id] raises inside the block. *)
Definition ingest_events (now : reading) (data : json) (s : store)
  : list event :=
  Validate ::
  if negb (py_truthy data) then [Respond]
  else
    match py_in "device_id" data with
    | Ok true =>
        match
          (device_id <- py_getitem data "device_id" ;;
           _ <- py_setitem data "received_at" (JStr (stamp now)) ;;
           Ok device_id)
        with
        | Ok device_id =>
            Stamp ::
            (if py_hashable device_id
             then with_lock [Write device_id] ++ [Log; Respond]
             else with_lock [] ++ [Respond])
        | Raise _ => [Respond]
        end
    | _ => [Respond]
    end.

(** [list_devices]: the loop and the return are inside the block. *)
Definition list_events (s : store) : list event :=
  with_lock (map (fun e => Classify (fst e)) s ++ [Respond]).

(** [get_device_metrics]: the lookup, the copy of the entry, its
    classification and the return are inside the block. *)
Definition detail_events (device_id : string) (s : store) : list event :=
  with_lock
    (match store_get (JStr device_id) s with
     | Some _ => [Copy (JStr device_id); Classify (JStr device_id); Respond]
     | None => [Respond]
     end).

(** The iterations of the dashboard's loop that run, the one that raises
    included. *)
Fixpoint dash_visits (clock : nat -> reading) (i : nat) (s : store) (a : acc)
  : list event :=
  match s with
  | [] => []
  | (device_id, data) :: s' =>
      Classify device_id ::
      match dash_step (clock i) a device_id data with
      | Ok a' => dash_visits clock (S i) s' a'
      | Raise _ => []
      end
  end.

(** [get_latest_metrics]: the loop, what follows it and the return are
    inside the block; an exception leaves the block without a return. *)
Definition dashboard_events (clock : nat -> reading) (s : store)
  : list event :=
  with_lock
    (match s with
     | [] => [Respond]
     | _ :: _ =>
         dash_visits clock 0%nat s acc0 ++
         (if is_ok (dash_loop clock 0%nat s acc0)
          then Aggregate ::
               (if is_ok (get_latest_metrics clock s) then [Respond] else [])
          else [])
     end).

(** Whether the lock is held after the events [tr], starting from [h]. *)
Fixpoint held_after (h : bool) (tr : list event) : bool :=
  match tr with
  | [] => h
  | Acquire :: tr' => held_after true tr'
  | Release :: tr' => held_after false tr'
  | _ :: tr' => held_after h tr'
  end.

(** The work of the read handlers on the entries. *)
Definition is_read_work (e : event) : bool :=
  match e with
  | Copy _ | Classify _ | Aggregate => true
  | _ => false
  end.

(** Copy-then-release: no classification or aggregation is done while
    the lock is held. *)
Definition work_outside_lock (tr : list event) : Prop :=
  forall pre e post,
    tr = pre ++ e :: post -> is_read_work e = true ->
    held_after false pre = false.

(** Hold-during-processing: all of it is done while the lock is held. *)
Definition work_under_lock (tr : list event) : Prop :=
  forall pre e post,
    tr = pre ++ e :: post -> is_read_work e = true ->
    held_after false pre = true.

(** ** Two requests at once *)

Definition is_lock_event (e : event) : bool :=
  match e with
  | Acquire | Release => true
  | _ => false
  end.

Definition is_write (e : event) : bool :=
  match e with
  | Write _ => true
  | _ => false
  end.

(** The events of two handlers, merged in some order of execution. *)
Inductive interleaving : list event -> list event -> list event -> Prop :=
| il_nil : interleaving [] [] []
| il_left (e : event) (l1 l2 m : list event) :
    interleaving l1 l2 m -> interleaving (e :: l1) l2 (e :: m)
| il_right (e : event) (l1 l2 m : list event) :
    interleaving l1 l2 m -> interleaving l1 (e :: l2) (e :: m).

(** Mutual exclusion: the lock is never taken while it is held, nor
    released while it is free.  [h] is whether it is held at the start. *)
Fixpoint exclusive (h : bool) (tr : list event) : bool :=
  match tr with
  | [] => true
  | Acquire :: tr' => negb h && exclusive true tr'
  | Release :: tr' => h && exclusive false tr'
  | _ :: tr' => exclusive h tr'
  end.

(** In the execution [m] of a read handler [R] and an ingestion [I], the
    write of [I] is outside the run of [R]: either all of [R] is over,
    together with a part of [I] that does not write, before the rest of
    [I] runs; or a part of [I] runs first, all of [R] coming after it
    together with a rest of [I] that does not write. *)
Definition write_outside_read (R I m : list event) : Prop :=
  (exists I1 I2 p,
      I = I1 ++ I2 /\ m = p ++ I2 /\ interleaving R I1 p
      /\ existsb is_write I1 = false)
  \/ (exists I1 I2 q,
         I = I1 ++ I2 /\ m = I1 ++ q /\ interleaving R I2 q
         /\ existsb is_write I2 = false).

(** Up to its first [Acquire], a trace neither writes nor releases. *)
Fixpoint quiet (tr : list event) : bool :=
  match tr with
  | [] => true
  | Acquire :: _ => true
  | Release :: _ => false
  | Write _ :: _ => false
  | _ :: tr' => quiet tr'
  end.

(* ================================================================== *)
(** * The specification's vocabulary *)

(** ** Freshness (the classifier of the specification)

    [is_stale(received_at, now, window)]: stale when
    [now - received_at > window]; a missing or unparsable [received_at]
    is stale. *)
Definition is_stale (received_at : option Z) (now : Z) (window : Z) : bool :=
  match received_at with
  | Some t => now - t >? window
  | None => true
  end.

(** The fixed window: 60 seconds. *)
Definition window : Z := 60 * 1000000.

(** The instant (microseconds, UTC) that the [received_at] of an entry
    denotes; [None] when the field is missing or does not parse.  A
    timestamp without offset denotes local time. *)
Definition received_instant (now : reading) (data : dict) : option Z :=
  match dict_get "received_at" data with
  | Some (JStr s) =>
      match fromisoformat (replace_Z s) with
      | Ok p =>
          Some (to_us (fields p)
                - match tzoffset p with
                  | Some off => off
                  | None => local_utcoffset now
                  end)
      | Raise _ => None
      end
  | _ => None
  end.

Definition stale_at (now : reading) (data : dict) : bool :=
  is_stale (received_instant now data) (to_us (utcnow now)) window.

Definition fresh_at (now : reading) (data : dict) : bool :=
  negb (stale_at now data).

(** The entries of the store with the clock reading of their iteration. *)
Fixpoint timed (clock : nat -> reading) (i : nat) (s : store)
  : list (reading * (json * dict)) :=
  match s with
  | [] => []
  | e :: s' => (clock i, e) :: timed clock (S i) s'
  end.

(** A function of the reading and the report, applied to such an entry. *)
Definition on_entry {A : Type} (f : reading -> dict -> A)
           (te : reading * (json * dict)) : A :=
  f (fst te) (snd (snd te)).

Definition delta (b : bool) : nat := if b then 1%nat else 0%nat.

(** ** Device status *)

Definition recognized (x : json) : bool :=
  py_eq_str x "healthy" || py_eq_str x "warning"
  || py_eq_str x "critical" || py_eq_str x "unknown".

(** As the specification words it: [offline] when stale, else the
    report's [overall_status], or [unknown] when that is absent or not a
    recognized value. *)
Definition device_status_spec (now : reading) (data : dict) : json :=
  if stale_at now data then JStr "offline"
  else
    match dict_get "overall_status" data with
    | Some x => if recognized x then x else JStr "unknown"
    | None => JStr "unknown"
    end.

(** As the handlers have it: the [overall_status] is passed on as it is. *)
Definition device_status (now : reading) (data : dict) : json :=
  if stale_at now data then JStr "offline"
  else
    match dict_get "overall_status" data with
    | Some x => x
    | None => JStr "unknown"
    end.

(** ** Subsystem rollup *)

(** What the loop of the dashboard appends for the reading [k] of one
    report, [metrics[k].get('status', 'unknown')]: nothing when the report
    has no such reading, else its [status], or [unknown] when the reading
    has none. *)
Definition reading_status (k : string) (data : dict) : list json :=
  match dict_get "metrics" data with
  | Some (JObj m) =>
      match dict_get k m with
      | Some (JObj r) => [dget r "status" (JStr "unknown")]
      | _ => []
      end
  | _ => []
  end.

(** The list the handler collects for reading [k] ([cpu_statuses],
    [disk_statuses], [network_statuses]): what the fresh devices add, in
    the order of the store. *)
Definition fresh_reading (k : string) (now : reading) (data : dict)
  : list json :=
  if fresh_at now data then reading_status k data else [].

Definition fleet_statuses (k : string) (clock : nat -> reading) (s : store)
  : list json :=
  flat_map (on_entry (fresh_reading k)) (timed clock 0%nat s).

(** The collection S of the specification: the [status] fields of the
    readings [k] of the fresh devices, those that are there and no
    others. *)
Definition status_field (k : string) (data : dict) : list json :=
  match dict_get "metrics" data with
  | Some (JObj m) =>
      match dict_get k m with
      | Some (JObj r) =>
          match dict_get "status" r with
          | Some st => [st]
          | None => []
          end
      | _ => []
      end
  | _ => []
  end.

Definition fleet_status_fields (k : string) (clock : nat -> reading) (s : store)
  : list json :=
  flat_map (on_entry (fun now data =>
                        if fresh_at now data then status_field k data else []))
           (timed clock 0%nat s).

(** Every reading [k] in the store has a [status] field. *)
Definition readings_have_status (k : string) (s : store) : Prop :=
  Forall (fun e => forall m r,
              dict_get "metrics" (snd e) = Some (JObj m) ->
              dict_get k m = Some (JObj r) ->
              dict_mem "status" r = true) s.

(** The rule of the specification, case by case. *)
Definition rollup_of (S : list json) (r : string) : Prop :=
  (S = [] -> r = "unknown")
  /\ (S <> [] -> In (JStr "critical") S -> r = "critical")
  /\ (S <> [] -> ~ In (JStr "critical") S -> In (JStr "warning") S ->
      r = "warning")
  /\ (S <> [] -> ~ In (JStr "critical") S -> ~ In (JStr "warning") S ->
      (forall x, In x S -> x = JStr "healthy") -> r = "healthy")
  /\ (S <> [] -> ~ In (JStr "critical") S -> ~ In (JStr "warning") S ->
      ~ (forall x, In x S -> x = JStr "healthy") -> r = "unknown").

(** ** Fleet summary *)

Definition count_where (p : reading -> dict -> bool)
           (clock : nat -> reading) (s : store) : nat :=
  List.length (filter (on_entry p) (timed clock 0%nat s)).

Definition fresh_with (v : string) (now : reading) (data : dict) : bool :=
  fresh_at now data && py_eq_str (dget data "overall_status" (JStr "unknown")) v.

(** ** Reports the dashboard can render

    The shape under which the dashboard returns: [metrics], when present,
    is an object whose [cpu], [memory], [disk] and [network] readings are
    objects, and the [usage_percent] of [cpu] and [disk] is a number that
    fits a double (or is absent, null, or zero); [received_at] is a
    string. *)
Definition reading_ok (x : option json) : bool :=
  match x with
  | None | Some (JObj _) => true
  | Some _ => false
  end.

Definition usage_ok (x : option json) : bool :=
  match x with
  | None => true
  | Some (JObj r) =>
      match dict_get "usage_percent" r with
      | None => true
      | Some u => negb (py_truthy u) || is_ok (format_1f u)
      end
  | Some _ => false
  end.

Definition metrics_ok (data : dict) : bool :=
  match dict_get "metrics" data with
  | None => true
  | Some (JObj m) =>
      usage_ok (dict_get "cpu" m) && reading_ok (dict_get "memory" m)
      && usage_ok (dict_get "disk" m) && reading_ok (dict_get "network" m)
  | Some _ => false
  end.

Definition received_at_str (data : dict) : bool :=
  match dict_get "received_at" data with
  | Some (JStr _) => true
  | _ => false
  end.

Definition renderable (s : store) : Prop :=
  Forall (fun e => metrics_ok (snd e) = true /\ received_at_str (snd e) = true) s.

(** ** Reachable stores: what calls of [ingest_metrics] build from the
    empty store, the clock returning [datetime] objects. *)
Inductive reachable : store -> Prop :=
| reach_empty : reachable []
| reach_ingest (now : reading) (data : json) (s : store) :
    reachable s ->
    valid_datetime (utcnow now) = true ->
    reachable (fst (ingest_metrics now data s)).

(** The entry was stamped by the engine. *)
Definition engine_stamped (data : dict) : Prop :=
  exists now : reading,
    valid_datetime (utcnow now) = true
    /\ dict_get "received_at" data = Some (JStr (stamp now)).

(** ** The text of a stamp, piece by piece (used by the proofs) *)

(** The fraction of a stamp: empty when the microsecond is zero. *)
Definition fraction_text (us : Z) : string :=
  if us =? 0 then "" else "." ++ digits 6 us "".

(** The time component of a stamp. *)
Definition time_text (t : datetime) : string :=
  digits 2 (hour t) (":" ++ digits 2 (minute t) (":" ++ digits 2 (second t)
    (fraction_text (microsecond t)))).

(** No sign character occurs in [s]. *)
Fixpoint no_sign (s : string) : bool :=
  match s with
  | EmptyString => true
  | String c s' => negb (is_sign c) && no_sign s'
  end.

(** A row from which the detail strings can be computed. *)
Definition row_ok (row : dash_device) : Prop :=
  (exists t, dd_last_seen row = JStr t)
  /\ exists data, metrics_ok data = true
                  /\ dd_metrics row = dget data "metrics" (JObj []).

(** ** Sample data (used by the examples) *)

Definition noon : reading := mkReading (mkDatetime 2024 5 17 12 0 0 0) 0.

Definition five_past : reading := mkReading (mkDatetime 2024 5 17 12 0 5 0) 0.

Definition two_minutes_past : reading :=
  mkReading (mkDatetime 2024 5 17 12 2 0 0) 0.

(** A clock that stands still during one request. *)
Definition always (r : reading) : nat -> reading := fun _ => r.

(** A report as a monitor client sends it. *)
Definition sample_fields (device_id overall cpu : string) : dict :=
  [("device_id", JStr device_id);
   ("hostname", JStr "host");
   ("metrics",
    JObj [("cpu", JObj [("usage_percent", JFloat (85 # 2));
                        ("status", JStr cpu)]);
          ("disk", JObj [("usage_percent", JInt 71);
                         ("status", JStr "healthy")]);
          ("network", JObj [("connections", JInt 12);
                            ("status", JStr "healthy")])]);
   ("overall_status", JStr overall)].

Definition sample_report (device_id overall cpu : string) : json :=
  JObj (sample_fields device_id overall cpu).

(** The store after two clients reported at noon. *)
Definition two_devices : store :=
  fst (ingest_metrics noon (sample_report "dev-2" "healthy" "healthy")
         (fst (ingest_metrics noon (sample_report "dev-1" "warning" "warning")
                 []))).

(** A report with a status outside the recognized values. *)
Definition odd_report : json :=
  JObj [("device_id", JStr "dev-3"); ("overall_status", JStr "degraded")].

Definition two_minutes_five : reading :=
  mkReading (mkDatetime 2024 5 17 12 2 5 0) 0.

(** One device last heard of at noon, reporting [critical], and one heard
    of two minutes later. *)
Definition old_and_new : store :=
  fst (ingest_metrics two_minutes_past (sample_report "dev-2" "healthy" "healthy")
         (fst (ingest_metrics noon (sample_report "dev-1" "critical" "critical")
                 []))).

(** Two fresh devices and a stale one whose [cpu] is [critical]. *)
Definition three_devices : store :=
  fst (ingest_metrics two_minutes_past (sample_report "dev-3" "healthy" "healthy")
         (fst (ingest_metrics two_minutes_past
                 (sample_report "dev-2" "warning" "warning") old_and_new))).

(** A report whose [metrics] is [null]. *)
Definition null_metrics_report : json :=
  JObj [("device_id", JStr "dev-1"); ("metrics", JNull)].

(** Two devices that reported at noon: the [cpu] reading of the first has
    a [status], that of the second has none. *)
Definition status_and_none : store :=
  fst (ingest_metrics noon
         (JObj [("device_id", JStr "dev-2");
                ("metrics", JObj [("cpu", JObj [("usage_percent", JInt 10)])])])
         (fst (ingest_metrics noon
                 (JObj [("device_id", JStr "dev-1");
                        ("metrics",
                         JObj [("cpu", JObj [("status", JStr "healthy")])])])
                 []))).

(** A report that brings its own [received_at]. *)
Definition backdated_report : dict :=
  [("device_id", JStr "dev-1"); ("received_at", JStr "yesterday")].

(* ================================================================== *)
(** * Properties *)

(** ** Timestamps: what [isoformat] writes, [fromisoformat] reads back *)

Lemma digit_value_char d : 0 <= d < 10 -> digit_value (digit_char d) = Some d.
Proof.
  intros H.
  assert (d = 0 \/ d = 1 \/ d = 2 \/ d = 3 \/ d = 4 \/ d = 5 \/ d = 6
          \/ d = 7 \/ d = 8 \/ d = 9) as C by lia.
  repeat (destruct C as [-> | C]; [reflexivity |]).
  subst d; reflexivity.
Qed.

Lemma parse_digits_digits n : forall k acc v tail,
  0 <= v < 10 ^ Z.of_nat n ->
  parse_digits (n + k) acc (digits n v tail)
  = parse_digits k (acc * 10 ^ Z.of_nat n + v) tail.
Proof.
  induction n as [| n IH]; intros k acc v tail Hv.
  - simpl in *. f_equal. lia.
  - assert (E : 10 ^ Z.of_nat (S n) = 10 * 10 ^ Z.of_nat n).
    { rewrite Nat2Z.inj_succ, Z.pow_succ_r by lia. reflexivity. }
    rewrite E in Hv |- *.
    change (digits (S n) v tail)
      with (digits n (v / 10) (String (digit_char (v mod 10)) tail)).
    replace (S n + k)%nat with (n + S k)%nat by lia.
    rewrite IH.
    + cbn [parse_digits]. rewrite digit_value_char by (apply Z.mod_pos_bound; lia).
      f_equal.
      pose proof (Z.div_mod v 10 ltac:(lia)). lia.
    + split.
      * apply Z.div_pos; lia.
      * apply Z.div_lt_upper_bound; lia.
Qed.

Lemma parse_digits_exact n v tail :
  0 <= v < 10 ^ Z.of_nat n ->
  parse_digits n 0 (digits n v tail) = Some (v, tail).
Proof.
  intros Hv.
  pose proof (parse_digits_digits n 0 0 v tail Hv) as E.
  rewrite Nat.add_0_r in E. rewrite E. reflexivity.
Qed.

Lemma digit_char_cases d :
  0 <= d < 10 ->
  Ascii.eqb (digit_char d) "Z" = false
  /\ is_sign (digit_char d) = false.
Proof.
  intros H.
  assert (d = 0 \/ d = 1 \/ d = 2 \/ d = 3 \/ d = 4 \/ d = 5 \/ d = 6
          \/ d = 7 \/ d = 8 \/ d = 9) as C by lia.
  repeat (destruct C as [-> | C]; [split; reflexivity |]).
  subst d; split; reflexivity.
Qed.

Lemma digits_app n : forall v tail x,
  (digits n v tail ++ x)%string = digits n v (tail ++ x)%string.
Proof.
  induction n as [| n IH]; intros v tail x; [reflexivity |].
  cbn [digits]. rewrite IH. reflexivity.
Qed.

Lemma replace_Z_digits n : forall v tail,
  replace_Z (digits n v tail) = digits n v (replace_Z tail).
Proof.
  induction n as [| n IH]; intros v tail; [reflexivity |].
  cbn [digits]. rewrite IH. cbn [replace_Z].
  destruct (digit_char_cases (v mod 10)) as [-> _];
    [apply Z.mod_pos_bound; lia | reflexivity].
Qed.

Lemma digits_length n : forall v tail,
  String.length (digits n v tail) = (n + String.length tail)%nat.
Proof.
  induction n as [| n IH]; intros v tail; [reflexivity |].
  cbn [digits]. rewrite IH. cbn [String.length]. lia.
Qed.


Lemma digits_nonempty n v tail : digits (S n) v tail <> ""%string.
Proof.
  intros E. apply (f_equal String.length) in E.
  rewrite digits_length in E. discriminate E.
Qed.

Lemma parse_field_sep v more c rest :
  0 <= v < 10 ^ 2 -> rest <> ""%string ->
  parse_field (digits 2 v (String c rest)) more
  = if Ascii.eqb c ":" then Some (v, FColon rest)
    else if Ascii.eqb c "." then Some (v, FDot rest)
    else None.
Proof.
  intros Hv Hr. unfold parse_field.
  rewrite (parse_digits_exact 2) by exact Hv.
  destruct rest; [contradiction | reflexivity].
Qed.

Lemma parse_field_end v more :
  0 <= v < 10 ^ 2 ->
  parse_field (digits 2 v "") more = Some (v, FDone more).
Proof.
  intros Hv. unfold parse_field.
  rewrite (parse_digits_exact 2) by exact Hv. reflexivity.
Qed.

Lemma parse_fraction_digits v :
  0 <= v < 10 ^ 6 -> parse_fraction (digits 6 v "") = Some v.
Proof.
  intros Hv. unfold parse_fraction. rewrite digits_length.
  cbn [String.length Nat.add Nat.eqb orb].
  rewrite (parse_digits_exact 6) by exact Hv. reflexivity.
Qed.

Lemma no_sign_digits n : forall v tail,
  no_sign (digits n v tail) = no_sign tail.
Proof.
  induction n as [| n IH]; intros v tail; [reflexivity |].
  cbn [digits]. rewrite IH. cbn [no_sign].
  destruct (digit_char_cases (v mod 10)) as [_ ->];
    [apply Z.mod_pos_bound; lia | reflexivity].
Qed.

Lemma split_tz_app a c z :
  no_sign a = true -> is_sign c = true ->
  split_tz (a ++ String c z) = (a, String c z).
Proof.
  intros Ha Hc. induction a as [| x a IH].
  - cbn [append split_tz]. rewrite Hc. reflexivity.
  - cbn [no_sign] in Ha. apply andb_prop in Ha. destruct Ha as [Hx Ha].
    cbn [append split_tz]. apply negb_true_iff in Hx. rewrite Hx.
    rewrite (IH Ha). reflexivity.
Qed.

Lemma valid_datetime_bounds t :
  valid_datetime t = true ->
  0 <= year t < 10 ^ 4 /\ 0 <= month t < 10 ^ 2 /\ 0 <= day t < 10 ^ 2
  /\ 0 <= hour t < 10 ^ 2 /\ 0 <= minute t < 10 ^ 2 /\ 0 <= second t < 10 ^ 2
  /\ 0 <= microsecond t < 10 ^ 6.
Proof.
  unfold valid_datetime. intros H.
  repeat (apply andb_prop in H; destruct H as [H ?]).
  assert (days_in_month (year t) (month t) <= 31).
  { unfold days_in_month.
    destruct (month t =? 2); [destruct (is_leap (year t)); lia |].
    destruct (_ || _); lia. }
  change (10 ^ 4) with 10000. change (10 ^ 2) with 100.
  change (10 ^ 6) with 1000000. lia.
Qed.

Lemma no_sign_time_text t : no_sign (time_text t) = true.
Proof.
  unfold time_text, fraction_text.
  rewrite no_sign_digits. cbn [append no_sign].
  rewrite no_sign_digits. cbn [append no_sign].
  rewrite no_sign_digits.
  destruct (microsecond t =? 0); [reflexivity |].
  cbn [append no_sign]. rewrite no_sign_digits. reflexivity.
Qed.

Lemma parse_time_text t :
  valid_datetime t = true ->
  parse_hh_mm_ss_ff (time_text t) true
  = Some (hour t, minute t, second t, microsecond t, true).
Proof.
  intros V.
  destruct (valid_datetime_bounds t V) as (_ & _ & _ & Hh & Hm & Hs & Hu).
  unfold parse_hh_mm_ss_ff, time_text. cbn [append].
  rewrite parse_field_sep by (exact Hh || apply digits_nonempty).
  cbn [Ascii.eqb Bool.eqb].
  rewrite parse_field_sep by (exact Hm || apply digits_nonempty).
  cbn [Ascii.eqb Bool.eqb].
  unfold fraction_text.
  destruct (microsecond t =? 0) eqn:E.
  - rewrite parse_field_end by exact Hs.
    apply Z.eqb_eq in E. rewrite E. reflexivity.
  - cbn [append].
    rewrite parse_field_sep by (exact Hs || apply digits_nonempty).
    cbn [Ascii.eqb Bool.eqb].
    rewrite parse_fraction_digits by exact Hu. reflexivity.
Qed.

Lemma parse_isoformat_time_stamp t :
  valid_datetime t = true ->
  parse_isoformat_time (time_text t ++ "+00:00")
  = Ok (hour t, minute t, second t, microsecond t, Some 0).
Proof.
  intros V. unfold parse_isoformat_time.
  rewrite split_tz_app by (apply no_sign_time_text || reflexivity).
  rewrite parse_time_text by exact V. reflexivity.
Qed.

Lemma replace_Z_stamp t :
  replace_Z (isoformat t ++ "Z")
  = digits 4 (year t) ("-" ++ digits 2 (month t) ("-" ++ digits 2 (day t)
      ("T" ++ (time_text t ++ "+00:00")))).
Proof.
  unfold isoformat, time_text, fraction_text.
  repeat (rewrite digits_app; cbn [append]).
  repeat (rewrite replace_Z_digits; cbn [replace_Z Ascii.eqb Bool.eqb]).
  destruct (microsecond t =? 0).
  - reflexivity.
  - cbn [append replace_Z Ascii.eqb Bool.eqb].
    rewrite digits_app, replace_Z_digits. reflexivity.
Qed.

Lemma fromisoformat_stamp t :
  valid_datetime t = true ->
  fromisoformat (replace_Z (isoformat t ++ "Z")) = Ok (mkParsed t (Some 0)).
Proof.
  intros V.
  destruct (valid_datetime_bounds t V) as (Hy & Hmo & Hd & _).
  rewrite replace_Z_stamp. unfold fromisoformat, parse_isoformat_date.
  rewrite (parse_digits_exact 4) by exact Hy. cbn [append expect Ascii.eqb Bool.eqb].
  rewrite (parse_digits_exact 2) by exact Hmo. cbn [expect Ascii.eqb Bool.eqb].
  rewrite (parse_digits_exact 2) by exact Hd.
  rewrite parse_isoformat_time_stamp by exact V.
  cbn [bind]. unfold new_datetime.
  destruct t; cbn in V |- *. rewrite V. reflexivity.
Qed.

(** ** Dictionaries and the store *)

Lemma dict_get_set_same k v d : dict_get k (dict_set k v d) = Some v.
Proof.
  induction d as [| [k' v'] d IH]; cbn [dict_set dict_get].
  - rewrite String.eqb_refl. reflexivity.
  - destruct (String.eqb k k') eqn:E; cbn [dict_get]; rewrite E;
      [reflexivity | exact IH].
Qed.

Lemma dict_get_set_other k k' v d :
  k' <> k -> dict_get k' (dict_set k v d) = dict_get k' d.
Proof.
  intros N. induction d as [| [k0 v0] d IH]; cbn [dict_set dict_get].
  - apply String.eqb_neq in N. rewrite N. reflexivity.
  - destruct (String.eqb k k0) eqn:E; cbn [dict_get].
    + apply String.eqb_eq in E. subst k0.
      apply String.eqb_neq in N. rewrite N. reflexivity.
    + rewrite IH. reflexivity.
Qed.

Lemma py_eq_str_true x s : py_eq_str x s = true <-> x = JStr s.
Proof.
  destruct x; cbn [py_eq_str]; split; intros H; try discriminate.
  - apply String.eqb_eq in H. subst. reflexivity.
  - injection H as ->. apply String.eqb_refl.
Qed.

Lemma existsb_py_eq_str l s :
  existsb (fun x => py_eq_str x s) l = true <-> In (JStr s) l.
Proof.
  rewrite existsb_exists. split.
  - intros (x & Hx & E). apply py_eq_str_true in E. subst. exact Hx.
  - intros H. exists (JStr s). split; [exact H | apply py_eq_str_true; reflexivity].
Qed.

Lemma store_get_put_same k d s :
  py_eq k k = true -> store_get k (store_put k d s) = Some d.
Proof.
  intros R. induction s as [| [k' d'] s IH]; cbn [store_put store_get].
  - rewrite R. reflexivity.
  - destruct (py_eq k k') eqn:E; cbn [store_get]; rewrite E;
      [reflexivity | exact IH].
Qed.

Lemma In_store_put k d s e :
  In e (store_put k d s) -> In e s \/ snd e = d.
Proof.
  induction s as [| [k' d'] s IH]; cbn [store_put].
  - intros [<- | []]. right. reflexivity.
  - destruct (py_eq k k').
    + intros [<- | H]; [right; reflexivity | left; right; exact H].
    + intros [<- | H]; [left; left; reflexivity |].
      destruct (IH H) as [H' | H']; [left; right; exact H' | right; exact H'].
Qed.

(** ** The [try] blocks *)

(** The age the handlers compute is the distance from the instant the
    field denotes; they raise exactly when it denotes none. *)
Lemma age_of_instant now data :
  match received_instant now data with
  | Some t => age_of now data = Ok (to_us (utcnow now) - t)
  | None => exists e, age_of now data = Raise e
  end.
Proof.
  unfold received_instant, age_of. cbn [py_getitem].
  destruct (dict_get "received_at" data) as [x |]; cbn [bind];
    [| eexists; reflexivity].
  destruct x; cbn [py_replace_Z bind]; try (eexists; reflexivity).
  destruct (fromisoformat (replace_Z s)) as [p | e]; cbn [bind];
    [| eexists; reflexivity].
  unfold now_minus. destruct (tzoffset p); f_equal; lia.
Qed.

Lemma max_age_window : max_age_us = window.
Proof. reflexivity. Qed.

Lemma list_row_is_stale now k data :
  ds_is_stale (list_row now k data) = stale_at now data.
Proof.
  unfold list_row, stale_at, is_stale. cbn [ds_is_stale].
  pose proof (age_of_instant now data) as H.
  destruct (received_instant now data) as [t |].
  - rewrite H. reflexivity.
  - destruct H as [e ->]. reflexivity.
Qed.

Lemma list_row_status now k data :
  ds_overall_status (list_row now k data) = device_status now data.
Proof.
  pose proof (list_row_is_stale now k data) as H.
  unfold list_row in *. cbn [ds_is_stale ds_overall_status] in *.
  rewrite H. unfold device_status, dget. reflexivity.
Qed.

Lemma online_age_fresh now data :
  fst (online_age now data) = fresh_at now data.
Proof.
  unfold online_age, fresh_at, stale_at, is_stale.
  pose proof (age_of_instant now data) as H.
  destruct (received_instant now data) as [t |].
  - rewrite H. cbn [bind try_except fst]. rewrite max_age_window.
    rewrite Z.gtb_ltb, Z.ltb_antisym, negb_involutive. reflexivity.
  - destruct H as [e ->]. reflexivity.
Qed.

Lemma list_loop_map clock s : forall i,
  list_loop clock i s
  = map (fun te => list_row (fst te) (fst (snd te)) (snd (snd te)))
        (timed clock i s).
Proof.
  induction s as [| [k d] s IH]; intros i; cbn [list_loop timed map];
    [reflexivity |].
  rewrite IH. reflexivity.
Qed.

(** ** The loop of the dashboard *)

Lemma collect_spec data k l l' :
  collect (dget data "metrics" (JObj [])) k l = Ok l' ->
  l' = l ++ reading_status k data.
Proof.
  unfold collect, reading_status, dget.
  destruct (dict_get "metrics" data) as [m |].
  - destruct m; cbn [py_in bind]; try discriminate.
    + destruct (str_contains k s); cbn [py_getitem bind]; [discriminate |].
      intros H. injection H as <-. rewrite app_nil_r. reflexivity.
    + destruct (existsb _ l0); cbn [py_getitem bind]; [discriminate |].
      intros H. injection H as <-. rewrite app_nil_r. reflexivity.
    + unfold dict_mem, py_getitem.
      destruct (dict_get k kv) as [r |]; cbn [bind].
      * destruct r; cbn [py_get bind]; try discriminate.
        intros H. injection H as <-. reflexivity.
      * intros H. injection H as <-. rewrite app_nil_r. reflexivity.
  - cbn. intros H. injection H as <-. rewrite app_nil_r. reflexivity.
Qed.


Lemma count_status_spec st c :
  let c' := count_status st c in
  total_devices c' = total_devices c /\ online c' = online c
  /\ offline c' = offline c
  /\ healthy c' = (healthy c + delta (py_eq_str st "healthy"))%nat
  /\ warning c' = (warning c + delta (py_eq_str st "warning"))%nat
  /\ critical c' = (critical c + delta (py_eq_str st "critical"))%nat.
Proof.
  unfold count_status.
  destruct (py_eq_str st "healthy") eqn:H.
  - apply py_eq_str_true in H. subst st. cbn. lia.
  - destruct (py_eq_str st "warning") eqn:W.
    + apply py_eq_str_true in W. subst st. cbn. lia.
    + destruct (py_eq_str st "critical") eqn:C; cbn; lia.
Qed.

Lemma dash_step_spec now a k data a' :
  dash_step now a k data = Ok a' ->
  (exists row,
      devices a' = devices a ++ [row]
      /\ dd_device_id row = k
      /\ dd_is_online row = fresh_at now data
      /\ dd_overall_status row = device_status now data)
  /\ total_devices (counts a') = S (total_devices (counts a))
  /\ online (counts a') = (online (counts a) + delta (fresh_at now data))%nat
  /\ offline (counts a') = (offline (counts a) + delta (stale_at now data))%nat
  /\ healthy (counts a')
     = (healthy (counts a) + delta (fresh_with "healthy" now data))%nat
  /\ warning (counts a')
     = (warning (counts a) + delta (fresh_with "warning" now data))%nat
  /\ critical (counts a')
     = (critical (counts a) + delta (fresh_with "critical" now data))%nat
  /\ cpu_statuses a' = cpu_statuses a ++ fresh_reading "cpu" now data
  /\ memory_statuses a' = memory_statuses a ++ fresh_reading "memory" now data
  /\ disk_statuses a' = disk_statuses a ++ fresh_reading "disk" now data
  /\ network_statuses a' = network_statuses a ++ fresh_reading "network" now data.
Proof.
  unfold dash_step, fresh_with, fresh_reading.
  pose proof (online_age_fresh now data) as F.
  destruct (online_age now data) as [is_online age]. cbn [fst] in F. subst is_online.
  assert (S' : stale_at now data = negb (fresh_at now data))
    by (unfold fresh_at; rewrite negb_involutive; reflexivity).
  rewrite S'.
  destruct (fresh_at now data); cbn [negb andb delta].
  - destruct (collect _ "cpu" _) as [cpu |] eqn:Ec; cbn [bind]; [| discriminate].
    destruct (collect _ "memory" _) as [mem |] eqn:Em; cbn [bind]; [| discriminate].
    destruct (collect _ "disk" _) as [dsk |] eqn:Ed; cbn [bind]; [| discriminate].
    destruct (collect _ "network" _) as [net |] eqn:En; cbn [bind]; [| discriminate].
    intros H. injection H as <-.
    apply collect_spec in Ec, Em, Ed, En. subst.
    cbn [devices counts cpu_statuses memory_statuses disk_statuses network_statuses].
    assert (St : stale_at now data = false) by (rewrite S'; reflexivity).
    split.
    { eexists. split; [reflexivity |].
      cbn [dd_device_id dd_is_online dd_overall_status negb].
      unfold device_status. rewrite St. unfold dget. auto. }
    pose proof (count_status_spec (dget data "overall_status" (JStr "unknown"))
                  (mkSummary (S (total_devices (counts a))) (S (online (counts a)))
                     (offline (counts a)) (healthy (counts a))
                     (warning (counts a)) (critical (counts a)))) as C.
    cbn [total_devices online offline healthy warning critical] in C |- *.
    destruct C as (C1 & C2 & C3 & C4 & C5 & C6).
    rewrite C1, C2, C3, C4, C5, C6.
    repeat split; lia.
  - intros H. injection H as <-.
    cbn [devices counts cpu_statuses memory_statuses disk_statuses
         network_statuses total_devices online offline healthy warning critical].
    assert (St : stale_at now data = true) by (rewrite S'; reflexivity).
    split.
    { eexists. split; [reflexivity |].
      cbn [dd_device_id dd_is_online dd_overall_status negb].
      unfold device_status. rewrite St. auto. }
    rewrite !app_nil_r. repeat split; lia.
Qed.

Lemma filter_length_cons {A} (p : A -> bool) x l :
  List.length (filter p (x :: l)) = (delta (p x) + List.length (filter p l))%nat.
Proof. cbn [filter]. destruct (p x); reflexivity. Qed.

(** What the loop adds to its variables, from any starting point. *)
Lemma dash_loop_spec clock s : forall i a a',
  dash_loop clock i s a = Ok a' ->
  let T := timed clock i s in
  (exists rows,
      devices a' = devices a ++ rows
      /\ map dd_device_id rows = map (fun te => fst (snd te)) T
      /\ map dd_is_online rows = map (on_entry fresh_at) T
      /\ map dd_overall_status rows = map (on_entry device_status) T)
  /\ total_devices (counts a') = (total_devices (counts a) + List.length s)%nat
  /\ online (counts a')
     = (online (counts a) + List.length (filter (on_entry fresh_at) T))%nat
  /\ offline (counts a')
     = (offline (counts a) + List.length (filter (on_entry stale_at) T))%nat
  /\ healthy (counts a')
     = (healthy (counts a)
        + List.length (filter (on_entry (fresh_with "healthy")) T))%nat
  /\ warning (counts a')
     = (warning (counts a)
        + List.length (filter (on_entry (fresh_with "warning")) T))%nat
  /\ critical (counts a')
     = (critical (counts a)
        + List.length (filter (on_entry (fresh_with "critical")) T))%nat
  /\ cpu_statuses a'
     = cpu_statuses a ++ flat_map (on_entry (fresh_reading "cpu")) T
  /\ memory_statuses a'
     = memory_statuses a ++ flat_map (on_entry (fresh_reading "memory")) T
  /\ disk_statuses a'
     = disk_statuses a ++ flat_map (on_entry (fresh_reading "disk")) T
  /\ network_statuses a'
     = network_statuses a ++ flat_map (on_entry (fresh_reading "network")) T.
Proof.
  induction s as [| [k d] s IH]; intros i a a'.
  - cbn [dash_loop timed]. intros H. injection H as <-. cbn.
    split; [exists []; rewrite app_nil_r; auto |].
    rewrite !app_nil_r. repeat split; lia.
  - cbn [dash_loop timed].
    destruct (dash_step (clock i) a k d) as [a1 |] eqn:E; cbn [bind];
      [| discriminate].
    intros H. specialize (IH _ _ _ H). cbn zeta in IH |- *.
    apply dash_step_spec in E.
    destruct E as ((row & R1 & R2 & R3 & R4) & E1 & E2 & E3 & E4 & E5 & E6
                   & E7 & E8 & E9 & E10).
    destruct IH as ((rows & I1 & I2 & I3 & I4) & J1 & J2 & J3 & J4 & J5 & J6 & J7).
    split.
    { exists (row :: rows). rewrite I1, R1, <- app_assoc. cbn [app map].
      unfold on_entry at 1 3. cbn [fst snd].
      rewrite I2, I3, I4, R2, R3, R4. auto. }
    rewrite !filter_length_cons. unfold on_entry at 1 3 5 7 9. cbn [fst snd].
    rewrite J1, J2, J3, J4, J5, J6, E1, E2, E3, E4, E5, E6.
    cbn [List.length].
    repeat (split; [lia |]).
    destruct J7 as (K1 & K2 & K3 & K4).
    cbn [flat_map]. unfold on_entry at 1 3 5 7. cbn [fst snd].
    unfold fresh_reading at 1 3 5 7.
    rewrite K1, K2, K3, K4, E7, E8, E9, E10, <- !app_assoc. auto.
Qed.

Lemma dash_finish_spec now a r :
  dash_finish now a = Ok r ->
  d_devices r = devices a
  /\ d_summary r = counts a
  /\ status (network (d_system_status r)) = aggregate_status (network_statuses a)
  /\ status (compute (d_system_status r)) = aggregate_status (cpu_statuses a)
  /\ status (storage (d_system_status r)) = aggregate_status (disk_statuses a).
Proof.
  unfold dash_finish.
  destruct (match devices a with [] => _ | d :: l => _ end) as [recent |];
    cbn [bind]; [| discriminate].
  destruct (network_detail recent); cbn [bind]; [| discriminate].
  destruct (usage_detail recent "cpu" PercentCPU); cbn [bind]; [| discriminate].
  destruct (usage_detail recent "disk" PercentUsed); cbn [bind]; [| discriminate].
  intros H. injection H as <-. cbn. auto.
Qed.

(** A dashboard that is returned is the fixed one of the empty store, or
    what follows a loop that ran to its end. *)
Lemma get_latest_metrics_inv clock s r :
  get_latest_metrics clock s = Ok r ->
  (s = [] /\ r = no_data)
  \/ (s <> [] /\ exists a, dash_loop clock 0%nat s acc0 = Ok a
                 /\ dash_finish (clock (List.length s)) a = Ok r).
Proof.
  unfold get_latest_metrics. destruct s as [| e s].
  - intros H. injection H as <-. left. auto.
  - destruct (dash_loop clock 0%nat (e :: s) acc0) as [a |]; cbn [bind];
      [| discriminate].
    intros H. right. split; [discriminate |]. exists a. auto.
Qed.

Lemma dashboard_rows clock s r :
  get_latest_metrics clock s = Ok r ->
  map dd_device_id (d_devices r) = map (fun te => fst (snd te)) (timed clock 0%nat s)
  /\ map dd_is_online (d_devices r) = map (on_entry fresh_at) (timed clock 0%nat s)
  /\ map dd_overall_status (d_devices r)
     = map (on_entry device_status) (timed clock 0%nat s).
Proof.
  intros H. apply get_latest_metrics_inv in H.
  destruct H as [[-> ->] | (_ & a & L & F)]; [cbn; auto |].
  apply dash_finish_spec in F. destruct F as (-> & _).
  apply dash_loop_spec in L. cbn zeta in L.
  destruct L as ((rows & -> & R1 & R2 & R3) & _). cbn [devices acc0 app]. auto.
Qed.

(** ** The dashboard returns on renderable stores *)

Lemma reading_ok_usage x : usage_ok x = true -> reading_ok x = true.
Proof. destruct x as [[] |]; cbn; auto. Qed.

Lemma collect_ok data k l :
  metrics_ok data = true ->
  k = "cpu" \/ k = "memory" \/ k = "disk" \/ k = "network" ->
  exists l', collect (dget data "metrics" (JObj [])) k l = Ok l'.
Proof.
  unfold metrics_ok, collect, dget. intros M K.
  destruct (dict_get "metrics" data) as [m |]; [| eexists; reflexivity].
  destruct m; try discriminate.
  apply andb_prop in M. destruct M as [M Mn].
  apply andb_prop in M. destruct M as [M Md].
  apply andb_prop in M. destruct M as [Mc Mm].
  apply reading_ok_usage in Mc, Md.
  assert (R : reading_ok (dict_get k kv) = true)
    by (destruct K as [-> | [-> | [-> | ->]]]; assumption).
  cbn [py_in bind]. unfold dict_mem, py_getitem.
  destruct (dict_get k kv) as [r |]; cbn [bind]; [| eexists; reflexivity].
  destruct r; try discriminate. cbn [py_get bind]. eexists; reflexivity.
Qed.

Lemma dash_step_ok now a k data :
  metrics_ok data = true ->
  exists a' row,
    dash_step now a k data = Ok a'
    /\ devices a' = devices a ++ [row]
    /\ dd_metrics row = dget data "metrics" (JObj [])
    /\ dd_last_seen row = dget data "received_at" JNull.
Proof.
  intros M. unfold dash_step.
  destruct (online_age now data) as [is_online age].
  destruct is_online.
  - destruct (collect_ok data "cpu" (cpu_statuses a) M) as [cpu ->]; [auto |].
    destruct (collect_ok data "memory" (memory_statuses a) M) as [mem ->]; [auto |].
    destruct (collect_ok data "disk" (disk_statuses a) M) as [dsk ->]; [auto 6 |].
    destruct (collect_ok data "network" (network_statuses a) M) as [net ->]; [auto 6 |].
    cbn [bind]. eexists; eexists. split; [reflexivity |]. cbn. auto.
  - cbn [bind]. eexists; eexists. split; [reflexivity |]. cbn. auto.
Qed.

Lemma dash_loop_ok clock s : forall i a,
  renderable s -> Forall row_ok (devices a) ->
  exists a', dash_loop clock i s a = Ok a' /\ Forall row_ok (devices a').
Proof.
  induction s as [| [k d] s IH]; intros i a R A.
  - exists a. split; [reflexivity | exact A].
  - inversion R as [| e s' [M T] R']; subst. cbn [snd] in M, T.
    destruct (dash_step_ok (clock i) a k d M) as (a1 & row & E & D & Rm & Rl).
    cbn [dash_loop]. rewrite E. cbn [bind].
    apply IH; [exact R' |].
    rewrite D. apply Forall_app. split; [exact A |].
    constructor; [| constructor]. split.
    + rewrite Rl. unfold received_at_str, dget in *.
      destruct (dict_get "received_at" d) as [[] |]; try discriminate.
      eexists; reflexivity.
    + exists d. auto.
Qed.

Lemma max_last_seen_ok l : forall best,
  row_ok best -> Forall row_ok l ->
  exists m, max_last_seen best l = Ok m /\ row_ok m.
Proof.
  induction l as [| d l IH]; intros best B L.
  - exists best. split; [reflexivity | exact B].
  - inversion L as [| x y D L']; subst. cbn [max_last_seen].
    destruct B as [[tb Eb] B2]. destruct D as [[td Ed] D2].
    rewrite Eb, Ed. cbn [py_gt bind].
    apply IH; [| exact L'].
    destruct (String.ltb tb td); split; eauto.
Qed.

Lemma details_ok data :
  metrics_ok data = true ->
  let recent := dget data "metrics" (JObj []) in
  is_ok (network_detail recent) = true
  /\ is_ok (usage_detail recent "cpu" PercentCPU) = true
  /\ is_ok (usage_detail recent "disk" PercentUsed) = true.
Proof.
  unfold metrics_ok, dget. intros M.
  destruct (dict_get "metrics" data) as [m |]; [| cbn; auto].
  destruct m; try discriminate.
  apply andb_prop in M. destruct M as [M Mn].
  apply andb_prop in M. destruct M as [M Md].
  apply andb_prop in M. destruct M as [Mc _].
  assert (U : forall k mk, usage_ok (dict_get k kv) = true ->
                           is_ok (usage_detail (JObj kv) k mk) = true).
  { intros k mk. unfold usage_detail, usage_ok. cbn [py_get bind].
    destruct (dict_get k kv) as [r |]; [| reflexivity].
    destruct r; try discriminate. cbn [py_get bind].
    destruct (dict_get "usage_percent" kv0) as [u |]; [| reflexivity].
    destruct (py_truthy u); cbn [negb orb]; [| reflexivity].
    destruct (format_1f u); [reflexivity | discriminate]. }
  cbn zeta. repeat split; [| apply U; assumption | apply U; assumption].
  unfold network_detail, reading_ok in *. cbn [py_get bind].
  destruct (dict_get "network" kv) as [r |]; [| reflexivity].
  destruct r; try discriminate. cbn [py_truthy].
  destruct kv0; reflexivity.
Qed.

Lemma get_latest_metrics_ok clock s :
  renderable s -> is_ok (get_latest_metrics clock s) = true.
Proof.
  intros R. unfold get_latest_metrics. destruct s as [| e s]; [reflexivity |].
  destruct (dash_loop_ok clock (e :: s) 0%nat acc0 R) as (a & -> & A);
    [constructor |].
  cbn [bind]. unfold dash_finish.
  assert (exists m, match devices a with
                    | [] => Ok (JObj [])
                    | d :: l => m <- max_last_seen d l ;; Ok (dd_metrics m)
                    end = Ok m
                    /\ exists data, metrics_ok data = true
                                    /\ m = dget data "metrics" (JObj [])) as (m & -> & data & M & ->).
  { destruct (devices a) as [| d l].
    - exists (JObj []). split; [reflexivity |]. exists []. auto.
    - inversion A as [| x y D L]; subst.
      destruct (max_last_seen_ok l d D L) as (m & -> & _ & data & M & E).
      cbn [bind]. eexists. split; [reflexivity |]. eauto. }
  cbn [bind]. destruct (details_ok data M) as (N & C & D).
  destruct (network_detail _); [| discriminate].
  destruct (usage_detail _ "cpu" _); [| discriminate].
  destruct (usage_detail _ "disk" _); [| discriminate].
  reflexivity.
Qed.

Lemma get_latest_metrics_returns clock s :
  renderable s -> exists r, get_latest_metrics clock s = Ok r.
Proof.
  intros R. pose proof (get_latest_metrics_ok clock s R) as H.
  destruct (get_latest_metrics clock s) as [r |]; [| discriminate H].
  exists r. reflexivity.
Qed.

(* ================================================================== *)
(** * The claims *)

(** ** C8: the dashboard of the empty store *)

(** C8.  On the empty store the dashboard is the fixed no-data answer:
    every count of the summary is zero and each of the six entries of
    [system_status] has status [unknown]. *)
Theorem dashboard_empty_store (clock : nat -> reading) :
  exists r,
    get_latest_metrics clock [] = Ok r
    /\ d_devices r = []
    /\ d_summary r = mkSummary 0 0 0 0 0 0
    /\ status (network (d_system_status r)) = "unknown"
    /\ status (compute (d_system_status r)) = "unknown"
    /\ status (storage (d_system_status r)) = "unknown"
    /\ status (cooling (d_system_status r)) = "unknown"
    /\ status (security (d_system_status r)) = "unknown"
    /\ status (power (d_system_status r)) = "unknown".
Proof.
  exists no_data. cbn [get_latest_metrics]. repeat split.
Qed.

(** ** C5: staleness *)

Lemma detail_is_stale now id s data :
  store_get (JStr id) s = Some data ->
  exists d, get_device_metrics now id s = Detail200 d
            /\ dict_get "is_stale" d = Some (JBool (stale_at now data)).
Proof.
  intros G. unfold get_device_metrics. rewrite G.
  eexists. split; [reflexivity |].
  unfold stale_at, is_stale.
  pose proof (age_of_instant now data) as H.
  destruct (received_instant now data) as [t |].
  - rewrite H. cbn [bind try_except].
    rewrite dict_get_set_other by discriminate.
    rewrite dict_get_set_same. reflexivity.
  - destruct H as [e ->]. cbn [bind try_except].
    rewrite dict_get_set_same. reflexivity.
Qed.

(** C5.  The three read handlers classify alike: the flag [is_stale] of
    the list, the flag [is_stale] of the detail and the negation of
    [is_online] of the dashboard are the specification's
    [is_stale(received_at, now, 60 s)], which is [now - received_at > 60 s]
    when the stored [received_at] denotes an instant and [true] when it
    is missing or does not parse.  (The list and the detail always
    return; the dashboard returns on every store of reports it can
    render.) *)
Theorem staleness_classification (clock : nat -> reading) (s : store) :
  map ds_is_stale (list_devices clock s)
  = map (on_entry stale_at) (timed clock 0%nat s)
  /\ (renderable s -> exists r, get_latest_metrics clock s = Ok r)
  /\ (forall r, get_latest_metrics clock s = Ok r ->
                map (fun d => negb (dd_is_online d)) (d_devices r)
                = map (on_entry stale_at) (timed clock 0%nat s))
  /\ (forall now id data,
         store_get (JStr id) s = Some data ->
         exists d, get_device_metrics now id s = Detail200 d
                   /\ dict_get "is_stale" d = Some (JBool (stale_at now data)))
  /\ (forall now data,
         stale_at now data
         = match received_instant now data with
           | Some received_at =>
               to_us (utcnow now) - received_at >? 60 * 1000000
           | None => true
           end)
  /\ (forall now data,
         dict_get "received_at" data = None -> stale_at now data = true).
Proof.
  split; [| split; [| split; [| split; [| split]]]].
  - unfold list_devices. rewrite list_loop_map, map_map.
    apply map_ext. intros te. apply list_row_is_stale.
  - apply get_latest_metrics_returns.
  - intros r H. apply dashboard_rows in H. destruct H as (_ & H & _).
    rewrite <- (map_map dd_is_online negb), H, map_map.
    apply map_ext. intros te. unfold on_entry, fresh_at.
    apply negb_involutive.
  - intros now id data. apply detail_is_stale.
  - reflexivity.
  - intros now data H. unfold stale_at, received_instant. rewrite H. reflexivity.
Qed.

Lemma staleness_classification_witness :
  map ds_is_stale (list_devices (always two_minutes_past) two_devices)
  = [true; true]
  /\ (exists r,
         get_latest_metrics (always five_past) two_devices = Ok r
         /\ map (fun d => negb (dd_is_online d)) (d_devices r) = [false; false])
  /\ (exists d,
         get_device_metrics five_past "dev-1" two_devices = Detail200 d
         /\ dict_get "is_stale" d = Some (JBool false)).
Proof.
  split; [| split].
  - destruct (staleness_classification (always two_minutes_past) two_devices)
      as (L & _).
    rewrite L. reflexivity.
  - destruct (staleness_classification (always five_past) two_devices)
      as (_ & T & D & _).
    assert (W : renderable two_devices) by (repeat constructor).
    destruct (T W) as [r E].
    exists r. split; [exact E |]. rewrite (D r E). reflexivity.
  - destruct (staleness_classification (always five_past) two_devices)
      as (_ & _ & _ & G & _).
    destruct (G five_past "dev-1" _ eq_refl) as (d & E & S).
    exists d. split; [exact E |]. rewrite S. reflexivity.
Defined.

(** ** C1: device status *)

(** C1, as the handlers have it.  In the list and in the dashboard the
    status of a device is [offline] when its entry is stale; when it is
    fresh it is the [overall_status] of the report as it was sent, and
    [unknown] when the report has none.  (The list always returns; the
    dashboard returns on every store of reports it can render.) *)
Theorem device_status_reported (clock : nat -> reading) (s : store) :
  map ds_overall_status (list_devices clock s)
  = map (on_entry device_status) (timed clock 0%nat s)
  /\ (renderable s -> exists r, get_latest_metrics clock s = Ok r)
  /\ (forall r, get_latest_metrics clock s = Ok r ->
                map dd_overall_status (d_devices r)
                = map (on_entry device_status) (timed clock 0%nat s))
  /\ (forall now data,
         stale_at now data = true -> device_status now data = JStr "offline")
  /\ (forall now data x,
         stale_at now data = false ->
         dict_get "overall_status" data = Some x -> device_status now data = x)
  /\ (forall now data,
         stale_at now data = false ->
         dict_get "overall_status" data = None ->
         device_status now data = JStr "unknown").
Proof.
  split; [| split; [| split; [| split; [| split]]]].
  - unfold list_devices. rewrite list_loop_map, map_map.
    apply map_ext. intros te. apply list_row_status.
  - apply get_latest_metrics_returns.
  - intros r H. apply dashboard_rows in H. destruct H as (_ & _ & H). exact H.
  - intros now data H. unfold device_status. rewrite H. reflexivity.
  - intros now data x H E. unfold device_status. rewrite H, E. reflexivity.
  - intros now data H E. unfold device_status. rewrite H, E. reflexivity.
Qed.

Lemma device_status_reported_witness :
  (exists r,
      get_latest_metrics (always five_past) two_devices = Ok r
      /\ map dd_overall_status (d_devices r) = [JStr "warning"; JStr "healthy"])
  /\ device_status two_minutes_past [("received_at", JStr (stamp noon))]
     = JStr "offline"
  /\ device_status five_past
       [("overall_status", JStr "degraded"); ("received_at", JStr (stamp noon))]
     = JStr "degraded"
  /\ device_status five_past [("received_at", JStr (stamp noon))]
     = JStr "unknown".
Proof.
  destruct (device_status_reported (always five_past) two_devices)
    as (_ & T & D & O & V & U).
  split; [| split; [| split]].
  - assert (W : renderable two_devices) by (repeat constructor).
    destruct (T W) as [r E].
    exists r. split; [exact E |]. rewrite (D r E). reflexivity.
  - apply O. reflexivity.
  - apply V; reflexivity.
  - apply U; reflexivity.
Defined.

(** C1, as the specification words it, fails: a fresh device whose report
    carries an unrecognized [overall_status] is listed with that very
    value, not with [unknown]. *)
Lemma device_status_unrecognized_counterexample :
  let s := fst (ingest_metrics noon odd_report []) in
  map ds_overall_status (list_devices (always five_past) s)
  = [JStr "degraded"]
  /\ map (on_entry device_status_spec) (timed (always five_past) 0%nat s)
     = [JStr "unknown"]
  /\ map ds_overall_status (list_devices (always five_past) s)
     <> map (on_entry device_status_spec) (timed (always five_past) 0%nat s)
  /\ (exists r,
         get_latest_metrics (always five_past) s = Ok r
         /\ map dd_overall_status (d_devices r) = [JStr "degraded"]
         /\ map dd_overall_status (d_devices r)
            <> map (on_entry device_status_spec)
                   (timed (always five_past) 0%nat s)).
Proof.
  cbn zeta. split; [reflexivity | split; [reflexivity | split]].
  - discriminate.
  - eexists. split; [reflexivity |]. split; [reflexivity | discriminate].
Qed.

(** ** C6: the fleet summary *)

Lemma timed_length clock s : forall i, List.length (timed clock i s) = List.length s.
Proof.
  induction s as [| e s IH]; intros i; cbn [timed List.length];
    [reflexivity | rewrite IH; reflexivity].
Qed.

Lemma entry_buckets te :
  (delta (on_entry fresh_at te) + delta (on_entry stale_at te) = 1)%nat
  /\ (delta (on_entry (fresh_with "healthy") te)
      + delta (on_entry (fresh_with "warning") te)
      + delta (on_entry (fresh_with "critical") te)
      <= delta (on_entry fresh_at te))%nat.
Proof.
  unfold on_entry, fresh_with, fresh_at.
  destruct (stale_at (fst te) (snd (snd te))); cbn [negb andb delta];
    [lia |].
  destruct (py_eq_str _ "healthy") eqn:Eh.
  - apply py_eq_str_true in Eh. rewrite Eh. cbn. lia.
  - destruct (py_eq_str _ "warning") eqn:Ew.
    + apply py_eq_str_true in Ew. rewrite Ew. cbn. lia.
    + destruct (py_eq_str _ "critical"); cbn [delta]; lia.
Qed.

(** C6.  In a dashboard computed from a store that is not empty,
    [total_devices] is the number of entries, [online] the number of
    fresh ones, [offline] the number of stale ones, and [healthy],
    [warning] and [critical] count the fresh entries whose
    [overall_status] is that value; a stale entry is counted in
    [offline] and nowhere else.  (The dashboard returns on every store of
    reports it can render: [get_latest_metrics_returns].) *)
Theorem fleet_summary_counts (clock : nat -> reading) (s : store) (r : dashboard) :
  s <> [] ->
  get_latest_metrics clock s = Ok r ->
  total_devices (d_summary r) = List.length s
  /\ online (d_summary r) = count_where fresh_at clock s
  /\ offline (d_summary r) = count_where stale_at clock s
  /\ healthy (d_summary r) = count_where (fresh_with "healthy") clock s
  /\ warning (d_summary r) = count_where (fresh_with "warning") clock s
  /\ critical (d_summary r) = count_where (fresh_with "critical") clock s
  /\ (online (d_summary r) + offline (d_summary r))%nat = total_devices (d_summary r)
  /\ (healthy (d_summary r) + warning (d_summary r) + critical (d_summary r)
      <= online (d_summary r))%nat.
Proof.
  intros N H. apply get_latest_metrics_inv in H.
  destruct H as [[-> _] | (_ & a & L & F)]; [contradiction |].
  apply dash_finish_spec in F. destruct F as (_ & -> & _).
  pose proof (dash_loop_spec _ _ _ _ _ L) as I. cbn zeta in I.
  destruct I as (_ & T & O & F & H & W & C & _).
  cbn [acc0 counts total_devices online offline healthy warning critical
       Nat.add] in T, O, F, H, W, C.
  unfold count_where. rewrite T, O, F, H, W, C.
  repeat (split; [reflexivity |]).
  generalize (timed clock 0%nat s) (timed_length clock s 0%nat).
  intros l <-. clear.
  induction l as [| te l IH]; [cbn; lia |].
  rewrite !filter_length_cons. cbn [List.length].
  pose proof (entry_buckets te). lia.
Qed.

Lemma fleet_summary_counts_witness :
  exists r,
    get_latest_metrics (always two_minutes_five) old_and_new = Ok r
    /\ d_summary r = mkSummary 2 1 1 1 0 0
    /\ count_where (fresh_with "critical") (always two_minutes_five) old_and_new
       = 0%nat.
Proof.
  destruct (get_latest_metrics (always two_minutes_five) old_and_new)
    as [r |] eqn:E; [| discriminate E].
  exists r. split; [reflexivity |].
  assert (N : old_and_new <> []) by discriminate.
  destruct (fleet_summary_counts (always two_minutes_five) old_and_new r N E)
    as (T & O & F & H & W & C & _).
  split.
  - destruct r as [st ts ds [t o f h w c] ss].
    cbn [d_summary total_devices online offline healthy warning critical] in *.
    rewrite T, O, F, H, W, C. reflexivity.
  - reflexivity.
Defined.

(** ** C2: the subsystem rollups *)

Lemma aggregate_status_rollup S : rollup_of S (aggregate_status S).
Proof.
  unfold rollup_of, aggregate_status.
  destruct S as [| x l]; [repeat split; congruence |].
  set (S := x :: l).
  pose proof (existsb_py_eq_str S "critical") as C.
  pose proof (existsb_py_eq_str S "warning") as W.
  assert (H : forallb (fun s => py_eq_str s "healthy") S = true
              <-> forall y, In y S -> y = JStr "healthy").
  { rewrite forallb_forall. split; intros H y Hy.
    - apply py_eq_str_true. auto.
    - apply py_eq_str_true. auto. }
  destruct (existsb _ S) eqn:Ec.
  - assert (In (JStr "critical") S) by (apply C; reflexivity).
    repeat split; try discriminate; intros; tauto.
  - assert (~ In (JStr "critical") S) by (intros I; apply C in I; discriminate).
    destruct (existsb (fun s => py_eq_str s "warning") S) eqn:Ew.
    + assert (In (JStr "warning") S) by (apply W; reflexivity).
      repeat split; try discriminate; intros; tauto.
    + assert (~ In (JStr "warning") S) by (intros I; apply W in I; discriminate).
      destruct (forallb _ S) eqn:Eh.
      * assert (forall y, In y S -> y = JStr "healthy") by (apply H; reflexivity).
        repeat split; try discriminate; intros; tauto.
      * assert (~ forall y, In y S -> y = JStr "healthy")
          by (intros A; apply H in A; discriminate).
        repeat split; try discriminate; intros; tauto.
Qed.

Lemma timed_Forall (P : json * dict -> Prop) clock s : forall i,
  Forall P s -> Forall (fun te => P (snd te)) (timed clock i s).
Proof.
  induction s as [| e s IH]; intros i H; cbn [timed]; [constructor |].
  inversion H; subst. constructor; [assumption | apply IH; assumption].
Qed.

(** Where every reading has its [status], S is the collection of the
    [status] fields, to the letter. *)
Lemma fleet_statuses_fields k clock s :
  readings_have_status k s ->
  fleet_statuses k clock s = fleet_status_fields k clock s.
Proof.
  intros H. unfold fleet_statuses, fleet_status_fields.
  apply (timed_Forall _ clock s 0%nat) in H.
  induction H as [| te l Hte _ IH]; [reflexivity |].
  cbn [flat_map]. rewrite IH. f_equal.
  unfold on_entry, fresh_reading.
  destruct (fresh_at (fst te) (snd (snd te))); [| reflexivity].
  unfold reading_status, status_field, dget.
  destruct (dict_get "metrics" (snd (snd te))) as [[| | | | | | m] |];
    try reflexivity.
  destruct (dict_get k m) as [[| | | | | | r] |] eqn:Er; try reflexivity.
  specialize (Hte m r eq_refl Er). unfold dict_mem in Hte.
  destruct (dict_get "status" r); [reflexivity | discriminate Hte].
Qed.

(** C2, as the handler has it.  The dashboard returns on every store
    whose reports it can render, and whenever it returns, the status of
    [network], [compute] and [storage] follows the rule on the list that
    the loop collects from the [network], [cpu] and [disk] readings of the
    fresh devices that have that reading, a stale device contributing
    nothing: the [status] of the reading, and [unknown] for a reading
    that has no [status].  On that list the status is [unknown] when it
    is empty, else [critical] when it has it, else [warning] when it has
    it, else [healthy] when it has nothing else, else [unknown].  The
    list is the collection of the [status] fields exactly when every such
    reading has one. *)
Theorem subsystem_rollups (clock : nat -> reading) (s : store) :
  (renderable s -> exists r, get_latest_metrics clock s = Ok r)
  /\ (forall r,
        get_latest_metrics clock s = Ok r ->
        rollup_of (fleet_statuses "network" clock s)
                  (status (network (d_system_status r)))
        /\ rollup_of (fleet_statuses "cpu" clock s)
                     (status (compute (d_system_status r)))
        /\ rollup_of (fleet_statuses "disk" clock s)
                     (status (storage (d_system_status r))))
  /\ (forall k, readings_have_status k s ->
                fleet_statuses k clock s = fleet_status_fields k clock s).
Proof.
  split; [| split]; [| | intros k; apply fleet_statuses_fields].
  - apply get_latest_metrics_returns.
  - intros r H. apply get_latest_metrics_inv in H.
    destruct H as [[-> ->] | (_ & a & L & F)].
    + cbn. repeat split; congruence.
    + apply dash_finish_spec in F. destruct F as (_ & _ & -> & -> & ->).
      pose proof (dash_loop_spec _ _ _ _ _ L) as I. cbn zeta in I.
      destruct I as (_ & _ & _ & _ & _ & _ & _ & C & _ & D & N).
      cbn [acc0 cpu_statuses disk_statuses network_statuses app] in C, D, N.
      unfold fleet_statuses. rewrite C, D, N.
      repeat split; apply aggregate_status_rollup.
Qed.

Lemma subsystem_rollups_witness :
  exists r,
    get_latest_metrics (always two_minutes_five) three_devices = Ok r
    /\ fleet_statuses "cpu" (always two_minutes_five) three_devices
       = [JStr "warning"; JStr "healthy"]
    /\ status (compute (d_system_status r)) = "warning".
Proof.
  destruct (subsystem_rollups (always two_minutes_five) three_devices)
    as (T & R & _).
  assert (W : renderable three_devices)
    by (repeat constructor).
  destruct (T W) as [r E]. exists r. split; [exact E |].
  split; [reflexivity |].
  destruct (R r E) as (_ & (_ & _ & C & _) & _).
  apply C.
  - discriminate.
  - intros [H | [H | []]]; discriminate H.
  - left. reflexivity.
Defined.

(** C2, as the specification words it, fails: with S the [status] fields
    that are there, a fresh device whose [cpu] reading has no [status]
    beside one whose [cpu] is [healthy] gives S = [healthy], for which the
    rule says [healthy]; the dashboard says [unknown]. *)
Lemma subsystem_rollup_missing_status_counterexample :
  fleet_status_fields "cpu" (always five_past) status_and_none
  = [JStr "healthy"]
  /\ exists r,
       get_latest_metrics (always five_past) status_and_none = Ok r
       /\ status (compute (d_system_status r)) = "unknown"
       /\ ~ rollup_of
             (fleet_status_fields "cpu" (always five_past) status_and_none)
             (status (compute (d_system_status r))).
Proof.
  assert (E : fleet_status_fields "cpu" (always five_past) status_and_none
              = [JStr "healthy"]) by (vm_compute; reflexivity).
  split; [exact E |].
  destruct (get_latest_metrics (always five_past) status_and_none)
    as [r |] eqn:G; [| vm_compute in G; discriminate G].
  exists r. split; [reflexivity |].
  assert (U : status (compute (d_system_status r)) = "unknown")
    by (vm_compute in G; injection G as <-; reflexivity).
  split; [exact U |].
  rewrite E, U. intros (_ & _ & _ & H & _).
  assert (A : "unknown" = "healthy").
  { apply H.
    - discriminate.
    - intros [C | []]. discriminate C.
    - intros [C | []]. discriminate C.
    - intros x [<- | []]. reflexivity. }
  discriminate A.
Qed.

(** ** Ingestion *)

(** What a call leaves in the store: nothing new, or the stamped payload
    under its [device_id]. *)
Lemma ingest_store_cases now data s :
  fst (ingest_metrics now data s) = s
  \/ exists device_id d,
       data = JObj d
       /\ dict_get "device_id" d = Some device_id
       /\ py_hashable device_id = true
       /\ fst (ingest_metrics now data s)
          = store_put device_id (dict_set "received_at" (JStr (stamp now)) d) s.
Proof.
  unfold ingest_metrics, ingest_try.
  destruct (py_truthy data); cbn [negb]; [| left; reflexivity].
  destruct (py_in "device_id" data) as [[] |] eqn:I; try (left; reflexivity).
  unfold ingest_write.
  destruct data; cbn [py_getitem bind]; try (left; reflexivity).
  destruct (dict_get "device_id" kv) as [k |] eqn:G; cbn [bind py_setitem];
    [| left; reflexivity].
  unfold store_setitem.
  destruct (py_hashable k) eqn:Hk; cbn [bind]; [| left; reflexivity].
  right. exists k, kv. auto.
Qed.

(** The response is 400 exactly when the payload is falsy or does not
    contain ['device_id']; the store is then as it was. *)
Lemma ingest_400 now data s :
  snd (ingest_metrics now data s) = Ingest400
  <-> py_truthy data = false \/ py_in "device_id" data = Ok false.
Proof.
  unfold ingest_metrics, ingest_try.
  destruct (py_truthy data); cbn [negb].
  - destruct (py_in "device_id" data) as [[] |]; cbn [snd].
    + destruct (ingest_write now data s) as [[[k d] s'] |]; cbn [snd].
      * destruct (logged_cpu d); cbn [bind].
        -- destruct (py_getitem (JObj d) "received_at"); cbn [bind];
             split; intros H; try discriminate H;
             destruct H as [H | H]; discriminate H.
        -- split; intros H; try discriminate H;
             destruct H as [H | H]; discriminate H.
      * split; intros H; try discriminate H;
          destruct H as [H | H]; discriminate H.
    + split; auto.
    + split; intros H; try discriminate H;
        destruct H as [H | H]; discriminate H.
  - cbn [snd]. split; auto.
Qed.

Lemma ingest_400_unchanged now data s :
  snd (ingest_metrics now data s) = Ingest400 ->
  fst (ingest_metrics now data s) = s.
Proof.
  unfold ingest_metrics, ingest_try.
  destruct (py_truthy data); cbn [negb]; [| reflexivity].
  destruct (py_in "device_id" data) as [[] |]; try reflexivity.
  destruct (ingest_write now data s) as [[[k d] s'] |]; cbn [snd fst];
    [| reflexivity].
  destruct (logged_cpu d); cbn [bind]; [| discriminate].
  destruct (py_getitem (JObj d) "received_at"); cbn [bind]; discriminate.
Qed.

(** ** C3: validation *)

Lemma py_eq_refl_hashable k : py_hashable k = true -> py_eq k k = true.
Proof.
  destruct k; cbn; intros H; try discriminate H; try reflexivity.
  - destruct b; reflexivity.
  - apply Qeq_bool_refl.
  - apply Qeq_bool_refl.
  - apply String.eqb_refl.
Qed.

Lemma logged_cpu_raises d e : logged_cpu d = Raise e -> e = AttributeError.
Proof.
  unfold logged_cpu. cbn [py_get bind].
  destruct (match dict_get "metrics" d with Some v => v | None => JObj [] end);
    cbn [py_get bind]; try (intros H; injection H as <-; reflexivity).
  destruct (match dict_get "cpu" kv with Some v => v | None => JObj [] end);
    cbn [py_get bind]; intros H; try discriminate H;
    injection H as <-; reflexivity.
Qed.

(** A report whose [device_id] can be a key is stamped and stored under
    it; the answer is 200, or 500 when the log line raises. *)
Lemma ingest_object_stored now report k s :
  dict_get "device_id" report = Some k ->
  py_hashable k = true ->
  ingest_metrics now (JObj report) s
  = (store_put k (dict_set "received_at" (JStr (stamp now)) report) s,
     if is_ok (logged_cpu (dict_set "received_at" (JStr (stamp now)) report))
     then Ingest200 k (JStr (stamp now))
     else Ingest500 AttributeError).
Proof.
  intros G H. unfold ingest_metrics, ingest_try, ingest_write.
  destruct report as [| kv report]; [discriminate G |].
  cbn [py_truthy negb py_in py_getitem py_setitem]. unfold dict_mem.
  rewrite G. cbn [bind]. unfold store_setitem. rewrite H. cbn [bind].
  destruct (logged_cpu _) as [v | e] eqn:L; cbn [bind is_ok].
  - rewrite (dict_get_set_same "received_at"). reflexivity.
  - apply logged_cpu_raises in L. subst e. reflexivity.
Qed.

(** C3, as the handler has it.  A report (a JSON object) is answered 400
    exactly when it has no [device_id] key, and the store is then
    unchanged.  A [device_id] that is there is not tested for emptiness:
    whenever it can be a key of the store (a string, the empty one
    included, a number, a boolean or null) the report is stamped and
    stored under it, and the answer is 200, or 500 when the log line
    raises after the write; when it cannot (a list or an object) the
    answer is 500 and nothing is stored.  So a report whose [device_id]
    is the empty string is stored under [""]. *)
Theorem ingest_rejects_missing_device_id
        (now : reading) (report : dict) (s : store) :
  (snd (ingest_metrics now (JObj report) s) = Ingest400
   <-> dict_get "device_id" report = None)
  /\ (dict_get "device_id" report = None ->
      fst (ingest_metrics now (JObj report) s) = s)
  /\ (forall k,
         dict_get "device_id" report = Some k ->
         py_hashable k = true ->
         let d := dict_set "received_at" (JStr (stamp now)) report in
         fst (ingest_metrics now (JObj report) s) = store_put k d s
         /\ store_get k (fst (ingest_metrics now (JObj report) s)) = Some d
         /\ snd (ingest_metrics now (JObj report) s)
            = if is_ok (logged_cpu d) then Ingest200 k (JStr (stamp now))
              else Ingest500 AttributeError)
  /\ (forall k,
         dict_get "device_id" report = Some k ->
         py_hashable k = false ->
         ingest_metrics now (JObj report) s = (s, Ingest500 TypeError))
  /\ (dict_get "device_id" report = Some (JStr "") ->
      snd (ingest_metrics now (JObj report) s) <> Ingest400
      /\ store_get (JStr "") (fst (ingest_metrics now (JObj report) s))
         = Some (dict_set "received_at" (JStr (stamp now)) report)).
Proof.
  assert (E : snd (ingest_metrics now (JObj report) s) = Ingest400
              <-> dict_get "device_id" report = None).
  { rewrite ingest_400. cbn [py_truthy py_in]. unfold dict_mem.
    destruct report as [| kv report].
    - cbn. split; auto.
    - destruct (dict_get "device_id" (kv :: report)); split; intros H;
        try reflexivity; try discriminate H.
      + destruct H as [H | H]; discriminate H.
      + right. reflexivity. }
  assert (St : forall k,
             dict_get "device_id" report = Some k ->
             py_hashable k = true ->
             let d := dict_set "received_at" (JStr (stamp now)) report in
             fst (ingest_metrics now (JObj report) s) = store_put k d s
             /\ store_get k (fst (ingest_metrics now (JObj report) s)) = Some d
             /\ snd (ingest_metrics now (JObj report) s)
                = if is_ok (logged_cpu d) then Ingest200 k (JStr (stamp now))
                  else Ingest500 AttributeError).
  { intros k G H. cbn zeta. rewrite (ingest_object_stored now report k s G H).
    cbn [fst snd]. repeat split.
    apply store_get_put_same. apply py_eq_refl_hashable. exact H. }
  split; [exact E | split; [| split; [exact St | split]]].
  - intros H. apply ingest_400_unchanged. apply E. exact H.
  - intros k G H. unfold ingest_metrics, ingest_try, ingest_write.
    destruct report as [| kv report]; [discriminate G |].
    cbn [py_truthy negb py_in py_getitem py_setitem]. unfold dict_mem.
    rewrite G. cbn [bind]. unfold store_setitem. rewrite H. reflexivity.
  - intros G. destruct (St (JStr "") G eq_refl) as (_ & Sg & R).
    split; [| exact Sg].
    rewrite R. destruct (is_ok _); discriminate.
Qed.

Lemma ingest_rejects_missing_device_id_witness :
  ingest_metrics noon (JObj [("hostname", JStr "host")]) two_devices
  = (two_devices, Ingest400)
  /\ store_get (JStr "")
       (fst (ingest_metrics noon (JObj [("device_id", JStr "")]) two_devices))
     = Some [("device_id", JStr "");
             ("received_at", JStr "2024-05-17T12:00:00Z")]
  /\ ingest_metrics noon (JObj [("device_id", JArr [])]) two_devices
     = (two_devices, Ingest500 TypeError).
Proof.
  split; [| split].
  - destruct (ingest_rejects_missing_device_id noon [("hostname", JStr "host")]
                two_devices) as ([_ R] & U & _).
    rewrite (surjective_pairing (ingest_metrics _ _ _)).
    rewrite (R eq_refl), (U eq_refl). reflexivity.
  - destruct (ingest_rejects_missing_device_id noon [("device_id", JStr "")]
                two_devices) as (_ & _ & _ & _ & Em).
    destruct (Em eq_refl) as [_ G]. exact G.
  - destruct (ingest_rejects_missing_device_id noon [("device_id", JArr [])]
                two_devices) as (_ & _ & _ & Un & _).
    apply (Un (JArr [])); reflexivity.
Defined.

(** C3, as the specification words it, fails: a report whose [device_id]
    is the empty string is not rejected; it is stored and answered 200. *)
Lemma ingest_empty_device_id_counterexample :
  dict_get "device_id" [("device_id", JStr "")] = Some (JStr "")
  /\ ingest_metrics noon (JObj [("device_id", JStr "")]) []
     = ([(JStr "", [("device_id", JStr "");
                    ("received_at", JStr "2024-05-17T12:00:00Z")])],
        Ingest200 (JStr "") (JStr "2024-05-17T12:00:00Z"))
  /\ snd (ingest_metrics noon (JObj [("device_id", JStr "")]) []) <> Ingest400
  /\ fst (ingest_metrics noon (JObj [("device_id", JStr "")]) []) <> [].
Proof. repeat split; discriminate. Qed.

(** ** C4: errors and the store *)

(** C4 fails on the handler.  A report whose [metrics] is not an object
    is written to the store, and then the log line raises: the caller gets
    500 and the store has changed. *)
Theorem ingest_error_after_write :
  ingest_metrics noon null_metrics_report []
  = ([(JStr "dev-1", [("device_id", JStr "dev-1"); ("metrics", JNull);
                      ("received_at", JStr "2024-05-17T12:00:00Z")])],
     Ingest500 AttributeError).
Proof. reflexivity. Qed.

(** The store changes under an error response only in that way: whenever
    the response is not 200 and the log line does not raise, the store
    is as it was. *)
Lemma ingest_error_unchanged now data s :
  (forall k r, snd (ingest_metrics now data s) <> Ingest200 k r) ->
  (forall d, data = JObj d ->
             is_ok (logged_cpu (dict_set "received_at" (JStr (stamp now)) d))
             = true) ->
  fst (ingest_metrics now data s) = s.
Proof.
  intros E L. unfold ingest_metrics, ingest_try in *.
  destruct (py_truthy data); cbn [negb] in *; [| reflexivity].
  destruct (py_in "device_id" data) as [[] |]; try reflexivity.
  unfold ingest_write in *.
  destruct data; cbn [py_getitem bind] in *; try reflexivity.
  destruct (dict_get "device_id" kv) as [k |]; cbn [bind py_setitem] in *;
    [| reflexivity].
  destruct (store_setitem k _ s) as [s' |]; cbn [bind fst snd] in *;
    [| reflexivity].
  specialize (L kv eq_refl).
  destruct (logged_cpu _); [| discriminate L]. cbn [bind py_getitem] in E.
  rewrite dict_get_set_same in E. cbn [bind] in E.
  exfalso. exact (E _ _ eq_refl).
Qed.

(** ** C7: a report can be read back *)

(** C7, as the handlers have it.  After a report [R] whose [device_id] is
    a non-empty string has been ingested, the detail of that device is
    found, and it agrees with [R] on every key other than [received_at],
    [is_stale] and [age_seconds], which the engine sets; its
    [received_at] is the stamp of the ingestion. *)
Theorem record_then_get
        (now now' : reading) (R : dict) (id : string) (s : store) :
  dict_get "device_id" R = Some (JStr id) ->
  id <> "" ->
  exists d,
    get_device_metrics now' id (fst (ingest_metrics now (JObj R) s))
    = Detail200 d
    /\ (forall k, k <> "received_at" -> k <> "is_stale" -> k <> "age_seconds" ->
                  dict_get k d = dict_get k R)
    /\ dict_get "received_at" d = Some (JStr (stamp now)).
Proof.
  intros G _.
  assert (S' : fst (ingest_metrics now (JObj R) s)
               = store_put (JStr id)
                   (dict_set "received_at" (JStr (stamp now)) R) s).
  { unfold ingest_metrics, ingest_try, ingest_write.
    destruct R as [| kv R]; [discriminate G |].
    cbn [py_truthy negb py_in py_getitem py_setitem]. unfold dict_mem.
    rewrite G. cbn [bind store_setitem py_hashable fst]. reflexivity. }
  rewrite S'. unfold get_device_metrics.
  rewrite store_get_put_same by (cbn; apply String.eqb_refl).
  set (d0 := dict_set "received_at" (JStr (stamp now)) R).
  assert (K : forall k, k <> "received_at" -> dict_get k d0 = dict_get k R)
    by (intros k N; apply dict_get_set_other; exact N).
  assert (T : dict_get "received_at" d0 = Some (JStr (stamp now)))
    by apply dict_get_set_same.
  destruct (age_of now' d0) as [age | e]; cbn [bind try_except];
    eexists; (split; [reflexivity |]); split.
  - intros k N1 N2 N3. rewrite !dict_get_set_other by assumption. auto.
  - rewrite !dict_get_set_other by discriminate. exact T.
  - intros k N1 N2 N3. rewrite !dict_get_set_other by assumption. auto.
  - rewrite !dict_get_set_other by discriminate. exact T.
Qed.

Lemma record_then_get_witness :
  exists d,
    get_device_metrics five_past "dev-1"
      (fst (ingest_metrics noon (sample_report "dev-1" "warning" "warning") []))
    = Detail200 d
    /\ dict_get "overall_status" d = Some (JStr "warning")
    /\ dict_get "received_at" d = Some (JStr "2024-05-17T12:00:00Z").
Proof.
  assert (N : "dev-1" <> "") by discriminate.
  destruct (record_then_get noon five_past
              (sample_fields "dev-1" "warning" "warning") "dev-1" [] eq_refl N)
    as (d & E & K & T).
  exists d. split; [exact E |]. split; [| exact T].
  rewrite K by discriminate. reflexivity.
Defined.

(** C7, as the specification words it, fails: a [received_at] that the
    report brings is overwritten, so the entry read back does not carry
    the report as it was sent. *)
Lemma record_then_get_counterexample :
  dict_get "received_at" backdated_report = Some (JStr "yesterday")
  /\ exists d,
       get_device_metrics five_past "dev-1"
         (fst (ingest_metrics noon (JObj backdated_report) []))
       = Detail200 d
       /\ dict_get "received_at" d = Some (JStr "2024-05-17T12:00:00Z")
       /\ dict_get "received_at" d <> dict_get "received_at" backdated_report.
Proof.
  split; [reflexivity |].
  eexists. split; [reflexivity |]. split; [reflexivity | discriminate].
Qed.

(** ** C10: the timestamps of a reachable store *)

Lemma age_of_stamped now data :
  engine_stamped data -> exists age, age_of now data = Ok age.
Proof.
  intros (t & V & G). unfold age_of. cbn [py_getitem].
  rewrite G. cbn [bind py_replace_Z]. unfold stamp.
  rewrite fromisoformat_stamp by exact V. cbn [bind]. eexists; reflexivity.
Qed.

Lemma reachable_stamped s :
  reachable s -> Forall (fun e => engine_stamped (snd e)) s.
Proof.
  induction 1 as [| now data s R IH V]; [constructor |].
  destruct (ingest_store_cases now data s) as [-> | (k & d & _ & _ & _ & ->)];
    [exact IH |].
  apply Forall_forall. intros e I.
  apply In_store_put in I. destruct I as [I | ->].
  - rewrite Forall_forall in IH. auto.
  - exists now. split; [exact V | apply dict_get_set_same].
Qed.

(** The text of a stamp, as it is stored. *)
Lemma stamp_text t :
  stamp t
  = digits 4 (year (utcnow t)) ("-" ++ digits 2 (month (utcnow t))
      ("-" ++ digits 2 (day (utcnow t))
         ("T" ++ (time_text (utcnow t) ++ "Z")))).
Proof.
  unfold stamp, isoformat, time_text, fraction_text.
  repeat (rewrite digits_app; cbn [append]).
  destruct (microsecond (utcnow t) =? 0); [reflexivity |].
  cbn [append]. rewrite digits_app. reflexivity.
Qed.

Lemma age_of_stamp t0 now data :
  valid_datetime (utcnow t0) = true ->
  dict_get "received_at" data = Some (JStr (stamp t0)) ->
  age_of now data = Ok (to_us (utcnow now) - to_us (utcnow t0)).
Proof.
  intros V G. unfold age_of. cbn [py_getitem]. rewrite G.
  cbn [bind py_replace_Z]. unfold stamp.
  rewrite fromisoformat_stamp by exact V. cbn [bind].
  unfold now_minus. cbn [tzoffset fields]. f_equal. lia.
Qed.

(** C10.  In a store built by [ingest_metrics] alone, every entry has a
    [received_at] written by the engine: the text
    [YYYY-MM-DDTHH:MM:SS[.ffffff]Z] of a reading [t] of the engine's UTC
    clock.  The readers parse it back to that very reading, with offset
    zero (UTC), so the age they compute is the time elapsed since [t], and
    in the list, the detail and the dashboard the [try] around the age
    computation never raises: the classification is by age, never by the
    fallback of the [except]. *)
Theorem ingested_timestamps_parse (s : store) :
  reachable s ->
  Forall (fun e =>
            exists t : reading,
              valid_datetime (utcnow t) = true
              /\ dict_get "received_at" (snd e) = Some (JStr (stamp t))
              /\ stamp t
                 = digits 4 (year (utcnow t)) ("-" ++ digits 2 (month (utcnow t))
                     ("-" ++ digits 2 (day (utcnow t))
                        ("T" ++ (time_text (utcnow t) ++ "Z"))))
              /\ fromisoformat (replace_Z (stamp t))
                 = Ok (mkParsed (utcnow t) (Some 0))
              /\ forall now : reading,
                   let age := to_us (utcnow now) - to_us (utcnow t) in
                   age_of now (snd e) = Ok age
                   /\ received_instant now (snd e) = Some (to_us (utcnow t))
                   /\ ds_is_stale (list_row now (fst e) (snd e))
                      = (age >? max_age_us)
                   /\ online_age now (snd e) = (age <=? max_age_us, age)
                   /\ try_except
                        (a <- age_of now (snd e) ;;
                         Ok (dict_set "age_seconds" (seconds a)
                               (dict_set "is_stale" (JBool (a >? max_age_us))
                                  (snd e))))
                        (dict_set "is_stale" (JBool true) (snd e))
                      = dict_set "age_seconds" (seconds age)
                          (dict_set "is_stale" (JBool (age >? max_age_us))
                             (snd e)))
         s.
Proof.
  intros R. apply reachable_stamped in R.
  eapply Forall_impl; [| exact R].
  intros [k d] (t & V & G). cbn [fst snd] in *.
  exists t. split; [exact V |]. split; [exact G |].
  split; [apply stamp_text |].
  split; [unfold stamp; apply fromisoformat_stamp; exact V |].
  intros now. cbn zeta.
  pose proof (age_of_stamp t now d V G) as E.
  split; [exact E |].
  pose proof (age_of_instant now d) as I.
  destruct (received_instant now d) as [r |].
  - rewrite E in I. injection I as I.
    split; [f_equal; lia |].
    unfold list_row, online_age. rewrite E. cbn [bind try_except ds_is_stale].
    repeat split.
  - destruct I as [e I]. rewrite E in I. discriminate I.
Qed.

Lemma Some_JStr_inj (a b : string) : Some (JStr a) = Some (JStr b) -> a = b.
Proof. intros H. injection H as H. exact H. Qed.

Lemma ingested_timestamps_parse_witness :
  Forall (fun e =>
            dict_get "received_at" (snd e)
            = Some (JStr "2024-05-17T12:00:00Z")
            /\ age_of five_past (snd e) = Ok 5000000)
         two_devices.
Proof.
  assert (R : reachable two_devices).
  { unfold two_devices. apply reach_ingest; [| reflexivity].
    apply reach_ingest; [| reflexivity]. apply reach_empty. }
  pose proof (ingested_timestamps_parse two_devices R) as H.
  assert (D : Forall (fun e => dict_get "received_at" (snd e)
                               = Some (JStr "2024-05-17T12:00:00Z"))
                     two_devices)
    by (repeat constructor).
  rewrite Forall_forall in H, D. apply Forall_forall. intros e I.
  split; [apply D; exact I |].
  destruct (H e I) as (t & V & G & _ & P & A).
  destruct (A five_past) as (E & _).
  rewrite E. f_equal.
  rewrite (D e I) in G. apply Some_JStr_inj in G.
  rewrite <- G in P. clear - P. remember (utcnow t) as u eqn:U. clear U.
  vm_compute in P. injection P as <-. reflexivity.
Defined.

(** ** C9: the lock *)

Lemma held_after_work h w :
  existsb is_lock_event w = false -> held_after h w = h.
Proof.
  induction w as [| e w IH]; [reflexivity |].
  cbn [existsb]. intros H. apply orb_false_elim in H. destruct H as [He Hw].
  destruct e; try discriminate He; cbn [held_after]; auto.
Qed.

Lemma work_prefix w : forall pre e post,
  w ++ [Release] = pre ++ e :: post -> e <> Release ->
  exists post', w = pre ++ e :: post'.
Proof.
  induction w as [| x w IH]; intros pre e post E N.
  - destruct pre as [| y pre]; cbn in E.
    + injection E as <- _. contradiction.
    + injection E as _ E. destruct pre; discriminate E.
  - destruct pre as [| y pre]; cbn in E.
    + injection E as <- _. exists w. reflexivity.
    + injection E as <- E. destruct (IH _ _ _ E N) as [post' ->].
      exists post'. reflexivity.
Qed.

(** Inside [with _metrics_lock:], whatever is done is done while the lock
    is held. *)
Lemma with_lock_held w :
  existsb is_lock_event w = false -> work_under_lock (with_lock w).
Proof.
  intros W pre e post E R. unfold with_lock in E.
  destruct pre as [| x pre]; cbn in E.
  - injection E as <- _. discriminate R.
  - injection E as <- E. cbn [held_after].
    assert (N : e <> Release) by (intros ->; discriminate R).
    destruct (work_prefix w pre e post E N) as [post' ->].
    rewrite existsb_app in W. apply orb_false_elim in W. destruct W as [W _].
    apply held_after_work. exact W.
Qed.

Lemma dash_visits_work clock s : forall i a,
  existsb is_lock_event (dash_visits clock i s a) = false.
Proof.
  induction s as [| [k d] s IH]; intros i a; [reflexivity |].
  cbn [dash_visits existsb is_lock_event orb].
  destruct (dash_step (clock i) a k d); [apply IH | reflexivity].
Qed.

Lemma list_work s :
  exists w, list_events s = with_lock w /\ existsb is_lock_event w = false.
Proof.
  eexists. split; [reflexivity |].
  rewrite existsb_app. cbn [existsb is_lock_event orb]. rewrite orb_false_r.
  induction s as [| e s IH]; [reflexivity | exact IH].
Qed.

Lemma detail_work id s :
  exists w, detail_events id s = with_lock w
            /\ existsb is_lock_event w = false.
Proof.
  eexists. split; [reflexivity |].
  destruct (store_get (JStr id) s); reflexivity.
Qed.

Lemma dashboard_work clock s :
  exists w, dashboard_events clock s = with_lock w
            /\ existsb is_lock_event w = false.
Proof.
  eexists. split; [reflexivity |].
  destruct s as [| e s]; [reflexivity |].
  rewrite existsb_app, dash_visits_work.
  destruct (is_ok (dash_loop _ _ _ _)); [| reflexivity].
  destruct (is_ok (get_latest_metrics _ _)); reflexivity.
Qed.

(** The shape of an ingestion: what it does before taking the lock, and
    then either nothing more, or the locked assignment and what follows
    the block. *)
Lemma ingest_shape now data s :
  exists a tail,
    ingest_events now data s = a ++ tail
    /\ existsb is_lock_event a = false
    /\ existsb is_write a = false
    /\ (tail = []
        \/ exists c b, tail = Acquire :: c ++ Release :: b
                       /\ existsb is_lock_event c = false
                       /\ existsb is_write b = false).
Proof.
  unfold ingest_events.
  destruct (negb (py_truthy data)).
  { exists [Validate; Respond], []. repeat split; auto. }
  destruct (py_in "device_id" data) as [[] |];
    try (exists [Validate; Respond], []; repeat split; auto; fail).
  destruct (_ <- py_getitem data "device_id" ;; _) as [k |];
    [| exists [Validate; Respond], []; repeat split; auto].
  exists [Validate; Stamp].
  destruct (py_hashable k).
  - exists (Acquire :: [Write k] ++ Release :: [Log; Respond]).
    repeat split; auto. right. exists [Write k], [Log; Respond].
    repeat split; auto.
  - exists (Acquire :: [] ++ Release :: [Respond]).
    repeat split; auto. right. exists [], [Respond]. repeat split; auto.
Qed.

Lemma interleaving_nil_l l m : interleaving [] l m -> m = l.
Proof.
  revert m. induction l as [| e l IH]; intros m H; inversion H; subst;
    [reflexivity | f_equal; auto].
Qed.

Lemma interleaving_nil_r l : interleaving l [] l.
Proof. induction l as [| e l IH]; constructor; exact IH. Qed.

Lemma quiet_prefix a tail :
  existsb is_lock_event a = false -> existsb is_write a = false ->
  (tail = [] \/ exists t, tail = Acquire :: t) ->
  quiet (a ++ tail) = true.
Proof.
  intros L W T. induction a as [| e a IH].
  - destruct T as [-> | [t ->]]; reflexivity.
  - cbn [existsb] in L, W. apply orb_false_elim in L, W.
    destruct L as [Le L], W as [We W].
    destruct e; try discriminate Le; try discriminate We; cbn [app quiet];
      apply IH; assumption.
Qed.

(** A read handler inside its block runs to the end of it before an
    ingestion that has yet to take the lock writes anything. *)
Lemma holder_finishes m : forall w I,
  existsb is_lock_event w = false ->
  quiet I = true ->
  interleaving (w ++ [Release]) I m ->
  exclusive true m = true ->
  exists I1 I2 p,
    I = I1 ++ I2 /\ m = p ++ I2 /\ interleaving (w ++ [Release]) I1 p
    /\ existsb is_write I1 = false.
Proof.
  induction m as [| e m IH]; intros w I W Q H X.
  - inversion H as [E1 E2 | |]. destruct w; discriminate E1.
  - inversion H as [| e' l1 l2 m' H' E1 E2 E3 | e' l1 l2 m' H' E1 E2 E3]; subst.
    + destruct w as [| x w]; cbn [app] in E1; injection E1 as -> ->.
      * apply interleaving_nil_l in H'. subst m.
        exists [], I, [Release]. repeat split. constructor. constructor.
      * cbn [existsb] in W. apply orb_false_elim in W. destruct W as [Wx W].
        assert (X' : exclusive true m = true)
          by (destruct x; try discriminate Wx; exact X).
        destruct (IH w I W Q H' X') as (I1 & I2 & p & -> & -> & Hp & Hw).
        exists I1, I2, (x :: p). repeat split; [constructor; exact Hp | exact Hw].
    + assert (X' : exclusive true m = true /\ quiet l2 = true
                   /\ is_write e = false).
      { destruct e; try discriminate Q; try discriminate X; cbn in Q, X; auto. }
      destruct X' as (X' & Q' & We).
      destruct (IH w l2 W Q' H' X') as (I1 & I2 & p & -> & -> & Hp & Hw).
      exists (e :: I1), I2, (e :: p).
      repeat split; [constructor; exact Hp |].
      cbn [existsb]. rewrite We, Hw. reflexivity.
Qed.

(** An ingestion inside its block leaves it before a read handler that
    has yet to take the lock does anything. *)
Lemma writer_finishes c : forall b R m,
  existsb is_lock_event c = false ->
  interleaving (Acquire :: R) (c ++ Release :: b) m ->
  exclusive true m = true ->
  exists q, m = c ++ Release :: q /\ interleaving (Acquire :: R) b q.
Proof.
  induction c as [| y c IH]; intros b R m C H X.
  - inversion H as [| e' l1 l2 m' H' E1 E2 E3 | e' l1 l2 m' H' E1 E2 E3]; subst.
    + discriminate X.
    + exists m'. split; [reflexivity | exact H'].
  - cbn [existsb] in C. apply orb_false_elim in C. destruct C as [Cy C].
    inversion H as [| e' l1 l2 m' H' E1 E2 E3 | e' l1 l2 m' H' E1 E2 E3]; subst.
    + discriminate X.
    + assert (X' : exclusive true m' = true)
        by (destruct y; try discriminate Cy; exact X).
      destruct (IH b R m' C H' X') as (q & -> & Hq).
      exists q. split; [reflexivity | exact Hq].
Qed.

(** Whatever the scheduling, the write of an ingestion is outside the
    block of a read handler. *)
Lemma lock_serializes w a tail : forall m,
  existsb is_lock_event w = false ->
  existsb is_lock_event a = false ->
  existsb is_write a = false ->
  (tail = []
   \/ exists c b, tail = Acquire :: c ++ Release :: b
                  /\ existsb is_lock_event c = false
                  /\ existsb is_write b = false) ->
  interleaving (with_lock w) (a ++ tail) m ->
  exclusive false m = true ->
  write_outside_read (with_lock w) (a ++ tail) m.
Proof.
  intros m W A Aw T. destruct T as [-> | (c & b & -> & C & B)].
  { rewrite app_nil_r. intros H _. left. exists a, [], m.
    rewrite !app_nil_r. repeat split; assumption. }
  revert m. unfold with_lock.
  induction a as [| y a IH]; intros m H X.
  - cbn [app] in *.
    inversion H as [| e' l1 l2 m' H' E1 E2 E3 | e' l1 l2 m' H' E1 E2 E3]; subst.
    + cbn [exclusive negb andb] in X.
      destruct (holder_finishes m' w (Acquire :: c ++ Release :: b) W
                  eq_refl H' X)
        as (I1 & I2 & p & E & -> & Hp & Hw).
      left. exists I1, I2, (Acquire :: p).
      repeat split; [exact E | constructor; exact Hp | exact Hw].
    + cbn [exclusive negb andb] in X.
      destruct (writer_finishes c b _ m' C H' X) as (q & -> & Hq).
      right. exists (Acquire :: c ++ [Release]), b, q.
      repeat split; [| | exact Hq | exact B];
        cbn [app]; rewrite <- app_assoc; reflexivity.
  - cbn [existsb] in A, Aw. apply orb_false_elim in A, Aw.
    destruct A as [Ay A], Aw as [Awy Aw]. cbn [app] in *.
    inversion H as [| e' l1 l2 m' H' E1 E2 E3 | e' l1 l2 m' H' E1 E2 E3]; subst.
    + cbn [exclusive negb andb] in X.
      assert (Q : quiet (y :: a ++ Acquire :: c ++ Release :: b) = true).
      { apply (quiet_prefix (y :: a)); cbn [existsb];
          [rewrite Ay, A | rewrite Awy, Aw | right; eexists]; reflexivity. }
      destruct (holder_finishes m' w _ W Q H' X)
        as (I1 & I2 & p & E & -> & Hp & Hw).
      left. exists I1, I2, (Acquire :: p).
      repeat split; [exact E | constructor; exact Hp | exact Hw].
    + assert (X' : exclusive false m' = true)
        by (destruct y; try discriminate Ay; exact X).
      destruct (IH A Aw m' H' X')
        as [(I1 & I2 & p & E & -> & Hp & Hw) | (I1 & I2 & q & E & -> & Hq & Hw)].
      * left. exists (y :: I1), I2, (y :: p).
        repeat split; [cbn [app]; rewrite E; reflexivity
                      | constructor; exact Hp |].
        cbn [existsb]. rewrite Awy, Hw. reflexivity.
      * right. exists (y :: I1), I2, q.
        repeat split; [cbn [app]; rewrite E; reflexivity | exact Hq | exact Hw].
Qed.

(** C9, as the handlers have it.  The read handlers hold the lock for
    their whole body: in the list, the detail and the dashboard every
    classification, the copy of the detail and the aggregation of the
    dashboard are done while the lock is held.  So in every execution of
    a read handler and an ingestion that respects the lock, the write of
    the ingestion is outside the run of the read handler: the read
    handler is over before it, or starts after it.  (What the ingestion
    does outside its own block can overlap with the read.) *)
Theorem reads_hold_the_lock (clock : nat -> reading) (s : store) :
  work_under_lock (list_events s)
  /\ work_under_lock (dashboard_events clock s)
  /\ (forall id, work_under_lock (detail_events id s))
  /\ (forall now data s' m,
         interleaving (dashboard_events clock s) (ingest_events now data s') m ->
         exclusive false m = true ->
         write_outside_read (dashboard_events clock s)
                            (ingest_events now data s') m)
  /\ (forall now data s' m,
         interleaving (list_events s) (ingest_events now data s') m ->
         exclusive false m = true ->
         write_outside_read (list_events s) (ingest_events now data s') m)
  /\ (forall id now data s' m,
         interleaving (detail_events id s) (ingest_events now data s') m ->
         exclusive false m = true ->
         write_outside_read (detail_events id s) (ingest_events now data s') m).
Proof.
  assert (Ser : forall r now data s' m,
             (exists w, r = with_lock w /\ existsb is_lock_event w = false) ->
             interleaving r (ingest_events now data s') m ->
             exclusive false m = true ->
             write_outside_read r (ingest_events now data s') m).
  { intros r now data s' m (w & -> & W).
    destruct (ingest_shape now data s') as (a & tail & -> & A & Aw & T).
    apply lock_serializes; assumption. }
  split; [| split; [| split; [| split; [| split]]]].
  - destruct (list_work s) as (w & -> & W). apply with_lock_held. exact W.
  - destruct (dashboard_work clock s) as (w & -> & W). apply with_lock_held. exact W.
  - intros id. destruct (detail_work id s) as (w & -> & W).
    apply with_lock_held. exact W.
  - intros now data s' m. apply Ser. apply dashboard_work.
  - intros now data s' m. apply Ser. apply list_work.
  - intros id now data s' m. apply Ser. apply detail_work.
Qed.

Lemma reads_hold_the_lock_witness :
  held_after false [Acquire; Classify (JStr "dev-1")] = true
  /\ write_outside_read
       (list_events two_devices)
       (ingest_events five_past (sample_report "dev-3" "healthy" "healthy")
          two_devices)
       [Acquire; Validate; Classify (JStr "dev-1"); Stamp;
        Classify (JStr "dev-2"); Respond; Release;
        Acquire; Write (JStr "dev-3"); Release; Log; Respond].
Proof.
  destruct (reads_hold_the_lock (always five_past) two_devices)
    as (L & _ & _ & _ & S & _).
  split.
  - apply (L [Acquire; Classify (JStr "dev-1")] (Classify (JStr "dev-2"))
             [Respond; Release]); reflexivity.
  - apply S.
    + change (list_events two_devices)
        with [Acquire; Classify (JStr "dev-1"); Classify (JStr "dev-2");
              Respond; Release].
      change (ingest_events five_past (sample_report "dev-3" "healthy" "healthy")
                two_devices)
        with [Validate; Stamp; Acquire; Write (JStr "dev-3"); Release;
              Log; Respond].
      apply il_left. apply il_right. apply il_left. apply il_right.
      do 3 apply il_left. do 5 apply il_right. apply il_nil.
    + reflexivity.
Defined.

(** C9, as the specification words it, fails: in the list and in the
    dashboard the entries are classified while the lock is held. *)
Lemma copy_then_release_counterexample :
  list_events two_devices
  = [Acquire; Classify (JStr "dev-1"); Classify (JStr "dev-2");
     Respond; Release]
  /\ dashboard_events (always five_past) two_devices
     = [Acquire; Classify (JStr "dev-1"); Classify (JStr "dev-2");
        Aggregate; Respond; Release]
  /\ ~ work_outside_lock (list_events two_devices)
  /\ ~ work_outside_lock (dashboard_events (always five_past) two_devices).
Proof.
  assert (D : dashboard_events (always five_past) two_devices
              = [Acquire; Classify (JStr "dev-1"); Classify (JStr "dev-2");
                 Aggregate; Respond; Release]) by (vm_compute; reflexivity).
  split; [reflexivity | split; [exact D | split]].
  - intros H.
    specialize (H [Acquire] (Classify (JStr "dev-1"))
                  [Classify (JStr "dev-2"); Respond; Release] eq_refl eq_refl).
    discriminate H.
  - rewrite D. intros H.
    specialize (H [Acquire] (Classify (JStr "dev-1"))
                  [Classify (JStr "dev-2"); Aggregate; Respond; Release]
                  eq_refl eq_refl).
    discriminate H.
Qed.
